(** * Cinemalytics: the movie ETL pipeline of [main.py]

    The program reads a JSON document of movies with pandas, flattens the
    list-valued fields, derives two columns, builds five relational tables
    and writes them to SQLite.  This file embeds the pandas operations the
    program calls (module [pd]) and then the functions of [main.py] under the
    names they have in the source.

    Scope of the embedding.
    - A cell is a missing value (NaN), an integer, a float, a string or a
      list.  A float64 is represented by the rational it denotes: the program
      stores, compares, floor-divides by ten and prints floats, nothing else.
    - A frame carries pandas' default row index (unnamed, one level, integer
      labels) and column labels that are pairwise distinct, as every frame
      built in [main.py] does.
    - The dtype of a column is read off its cells: int64 when every cell is
      an integer, float64 when every cell is a number or NaN, object
      otherwise.
    - matplotlib, SQLAlchemy and the file system are an environment the
      orchestrator is parameterised by. *)

From Stdlib Require Import ZArith QArith Qround List String Ascii Bool Lia Sorted.
From Stdlib Require Import DecimalString.
Import ListNotations.

Local Open Scope Z_scope.
Local Open Scope list_scope.

(* ================================================================== *)
(** ** Python values, exceptions and results *)

Module py.

(** What a cell of a frame, or a JSON value, can be. *)
#[warnings="-register-all"]
Inductive value : Type :=
| VNaN
| VInt (z : Z)
| VFloat (q : Q)
| VStr (s : string)
| VList (l : list value).

(** The built-in exceptions the pipeline can meet.  [ExternalError] stands for
    whatever matplotlib or SQLAlchemy raise; it records the class name. *)
Inductive exn : Type :=
| FileNotFoundError (msg : string)
| ValueError (msg : string)
| KeyError (key : string)
| TypeError (msg : string)
| IndexError (msg : string)
| ExternalError (cls msg : string).

Definition exn_class (e : exn) : string :=
  match e with
  | FileNotFoundError _ => "FileNotFoundError"
  | ValueError _ => "ValueError"
  | KeyError _ => "KeyError"
  | TypeError _ => "TypeError"
  | IndexError _ => "IndexError"
  | ExternalError cls _ => cls
  end.

(** [str(e)], as the f-strings of the handlers print it.  A [KeyError] prints
    the repr of its key. *)
Definition exn_str (e : exn) : string :=
  match e with
  | FileNotFoundError m | ValueError m | TypeError m | IndexError m => m
  | KeyError k => String.append "'" (String.append k "'")
  | ExternalError _ m => m
  end.

Inductive result (A : Type) : Type :=
| Ok (a : A)
| Raise (e : exn).
Arguments Ok {A} a.
Arguments Raise {A} e.

Definition bind {A B} (r : result A) (k : A -> result B) : result B :=
  match r with
  | Ok a => k a
  | Raise e => Raise e
  end.

Fixpoint mapM {A B} (f : A -> result B) (l : list A) : result (list B) :=
  match l with
  | [] => Ok []
  | x :: l' =>
      bind (f x) (fun y => bind (mapM f l') (fun ys => Ok (y :: ys)))
  end.

(** [str] of an integer. *)
Definition str_int (z : Z) : string := NilZero.string_of_int (Z.to_int z).

(** [str] of a float of integral value, printed positionally as Python does
    below 1e16: 1990.0 is "1990.0". *)
Definition str_float (q : Q) : string := String.append (str_int (Qfloor q)) ".0".

(** [str] and [repr] of a cell that is not a list; a string is quoted by
    [repr] (escapes left out). *)
Definition str_scalar (v : value) : string :=
  match v with
  | VNaN => "nan"
  | VInt z => str_int z
  | VFloat q => str_float q
  | VStr s => s
  | VList _ => "[...]"
  end.

Definition repr_scalar (v : value) : string :=
  match v with
  | VStr s => String.append "'" (String.append s "'")
  | _ => str_scalar v
  end.

(** [str] of a cell. *)
Definition str (v : value) : string :=
  match v with
  | VList l =>
      String.append "[" (String.append (String.concat ", " (map repr_scalar l)) "]")
  | _ => str_scalar v
  end.

End py.

Import py.

Notation "x <- r ;; k" := (bind r (fun x => k))
  (at level 61, r at next level, right associativity).

(* ================================================================== *)
(** ** The pandas operations the program calls *)

Module pd.

(** A row: its index label and its cells, one per column. *)
Record row : Type := Row { label : Z; cells : list value }.

Record DataFrame : Type := Frame { columns : list string; rows : list row }.

(** A Series is used by value only. *)
Definition Series : Type := list value.

Fixpoint position (c : string) (cols : list string) : option nat :=
  match cols with
  | [] => None
  | c' :: cols' =>
      if String.eqb c c' then Some O
      else match position c cols' with
           | Some i => Some (S i)
           | None => None
           end
  end.

Definition cell (i : nat) (r : row) : value := nth i (cells r) VNaN.

Fixpoint set_nth {A} (i : nat) (v : A) (l : list A) : list A :=
  match l, i with
  | [], _ => []
  | _ :: l', O => v :: l'
  | x :: l', S i' => x :: set_nth i' v l'
  end.

Definition set_cell (i : nat) (v : value) (r : row) : row :=
  Row (label r) (set_nth i v (cells r)).

Definition add_cell (v : value) (r : row) : row :=
  Row (label r) (cells r ++ [v]).

(** [df[c]]. *)
Definition getitem (df : DataFrame) (c : string) : result Series :=
  match position c (columns df) with
  | Some i => Ok (map (cell i) (rows df))
  | None => Raise (KeyError c)
  end.

(** [df[c] = s], for a series [s] that has the frame's own index: the
    column is replaced in place when it exists and appended otherwise. *)
Definition setitem (df : DataFrame) (c : string) (s : Series) : DataFrame :=
  match position c (columns df) with
  | Some i =>
      Frame (columns df)
            (map (fun rv => set_cell i (snd rv) (fst rv)) (combine (rows df) s))
  | None =>
      Frame (columns df ++ [c])
            (map (fun rv => add_cell (snd rv) (fst rv)) (combine (rows df) s))
  end.

(** *** explode *)

(** A list cell becomes one cell per element, an empty list one NaN; any
    other cell is kept. *)
Definition explode_cell (v : value) : list value :=
  match v with
  | VList [] => [VNaN]
  | VList l => l
  | _ => [v]
  end.

Definition explode_row (i : nat) (r : row) : list row :=
  map (fun v => set_cell i v r) (explode_cell (cell i r)).

(** [df.explode(c)]: every row is replaced, in place, by its expansions,
    which keep the row's label. *)
Definition explode (df : DataFrame) (c : string) : result DataFrame :=
  match position c (columns df) with
  | Some i => Ok (Frame (columns df) (flat_map (explode_row i) (rows df)))
  | None => Raise (KeyError c)
  end.

(** *** dtypes and arithmetic *)

Inductive dtype : Type := int64 | float64 | object.

Definition is_int (v : value) : bool :=
  match v with VInt _ => true | _ => false end.

Definition is_number (v : value) : bool :=
  match v with VInt _ | VFloat _ | VNaN => true | _ => false end.

Definition dtype_of (s : Series) : dtype :=
  if forallb is_int s then int64
  else if forallb is_number s then float64
  else object.

(** Two's complement wrap-around of int64 arithmetic. *)
Definition wrap64 (z : Z) : Z := (z + 2 ^ 63) mod 2 ^ 64 - 2 ^ 63.

(** [s // 10].  Integer floor division on an int64 column (the quotient of
    an int64 by ten is an int64: nothing wraps), float floor division on a
    float64 column (its integers are stored as floats, NaN stays NaN); on an
    object column Python's [//] meets a string or a list and raises. *)
Definition floordiv10 (s : Series) : result Series :=
  match dtype_of s with
  | int64 =>
      Ok (map (fun v => match v with VInt z => VInt (z / 10) | _ => v end) s)
  | float64 =>
      Ok (map (fun v => match v with
                        | VInt z => VFloat (inject_Z (Qfloor (inject_Z z / 10)))
                        | VFloat q => VFloat (inject_Z (Qfloor (q / 10)))
                        | _ => VNaN
                        end) s)
  | object => Raise (TypeError "unsupported operand type(s) for //")
  end.

(** [s * 10] on the result of [floordiv10]. *)
Definition mul10 (s : Series) : result Series :=
  match dtype_of s with
  | int64 =>
      Ok (map (fun v => match v with VInt z => VInt (wrap64 (z * 10)) | _ => v end) s)
  | float64 =>
      Ok (map (fun v => match v with
                        | VInt z => VFloat (inject_Z z * 10)
                        | VFloat q => VFloat (q * 10)
                        | _ => VNaN
                        end) s)
  | object => Raise (TypeError "unsupported operand type(s) for *")
  end.

(** [s.astype(str)]. *)
Definition astype_str (s : Series) : Series := map (fun v => VStr (str v)) s.

(** [s + suffix] on a column of strings. *)
Definition add_str (s : Series) (suffix : string) : result Series :=
  mapM (fun v => match v with
                 | VStr x => Ok (VStr (String.append x suffix))
                 | _ => Raise (TypeError "unsupported operand type(s) for +")
                 end) s.

(** [s.apply(f)]. *)
Definition apply (s : Series) (f : value -> result value) : result Series :=
  mapM f s.

(** *** fillna and astype *)

Definition fill_cell (v : value) : value :=
  match v with VNaN => VInt 0 | _ => v end.

(** [df.fillna(0, inplace=True)]: every missing cell of every column
    becomes 0 (stored as 0.0 in a float64 column, which compares equal). *)
Definition fillna0 (df : DataFrame) : DataFrame :=
  Frame (columns df)
        (map (fun r => Row (label r) (map fill_cell (cells r))) (rows df)).

(** Truncation toward zero, the C cast of a float to an integer. *)
Definition Qtrunc (q : Q) : Z := Z.quot (Qnum q) (Zpos (Qden q)).

(** [s.astype(np.int64)].  A string would be parsed by numpy and is left out
    of the model: it raises here. *)
Definition astype_int64 (s : Series) : result Series :=
  mapM (fun v => match v with
                 | VInt z => Ok (VInt z)
                 | VFloat q => Ok (VInt (Qtrunc q))
                 | VNaN => Raise (ValueError "Cannot convert non-finite values (NA or inf) to integer")
                 | VStr _ => Raise (ValueError "invalid literal for int()")
                 | VList _ => Raise (TypeError "int() argument must be a string or a number")
                 end) s.

(** [s.astype(np.float64)], with the same restriction on strings. *)
Definition astype_float64 (s : Series) : result Series :=
  mapM (fun v => match v with
                 | VInt z => Ok (VFloat (inject_Z z))
                 | VFloat q => Ok (VFloat q)
                 | VNaN => Ok VNaN
                 | VStr _ => Raise (ValueError "could not convert string to float")
                 | VList _ => Raise (TypeError "float() argument must be a string or a number")
                 end) s.

(** *** the index *)

Fixpoint relabel (n : Z) (rs : list row) : list row :=
  match rs with
  | [] => []
  | r :: rs' => Row n (cells r) :: relabel (n + 1) rs'
  end.

(** [df.reset_index(drop=True)]: labels 0, 1, 2, ... *)
Definition reset_index_drop (df : DataFrame) : DataFrame :=
  Frame (columns df) (relabel 0 (rows df)).

(** *** JSON input *)

(** A movie object of the document: its members in source order, each bound
    once.  A member absent from an object is a missing value of the frame. *)
Definition record : Type := list (string * value).

(** What [pd.read_json] finds at a path: nothing, text that is not JSON, or
    an object whose members are arrays of objects. *)
Inductive file_state : Type :=
| Absent
| Garbled
| Object (members : list (string * list record)).

Fixpoint same_length (n : nat) (ms : list (string * list record)) : bool :=
  match ms with
  | [] => true
  | (_, l) :: ms' => Nat.eqb (List.length l) n && same_length n ms'
  end.

(** [pd.read_json(path, encoding="utf-8")]: the top-level frame has one
    column per member. *)
Definition read_json (fs : string -> file_state) (path : string)
  : result (list (string * list record)) :=
  match fs path with
  | Absent =>
      Raise (FileNotFoundError
               (String.append "File " (String.append path " does not exist")))
  | Garbled => Raise (ValueError "Expected object or value")
  | Object [] => Ok []
  | Object ((k, l) :: ms) =>
      if same_length (List.length l) ms then Ok ((k, l) :: ms)
      else Raise (ValueError "All arrays must be of the same length")
  end.

(** [json_data[c]] on the top-level frame. *)
Fixpoint getitem_json (json_data : list (string * list record)) (c : string)
  : result (list record) :=
  match json_data with
  | [] => Raise (KeyError c)
  | (k, l) :: rest => if String.eqb c k then Ok l else getitem_json rest c
  end.

Fixpoint lookup (k : string) (r : record) : option value :=
  match r with
  | [] => None
  | (k', v) :: r' => if String.eqb k k' then Some v else lookup k r'
  end.

Definition mem (c : string) (cols : list string) : bool :=
  existsb (String.eqb c) cols.

(** The column labels: the member names in order of first appearance. *)
Fixpoint add_keys (cols : list string) (r : record) : list string :=
  match r with
  | [] => cols
  | (k, _) :: r' => add_keys (if mem k cols then cols else cols ++ [k]) r'
  end.

Definition union_keys (rs : list record) : list string :=
  fold_left add_keys rs [].

Definition record_cells (cols : list string) (r : record) : list value :=
  map (fun c => match lookup c r with Some v => v | None => VNaN end) cols.

Fixpoint number_rows (n : Z) (cols : list string) (rs : list record) : list row :=
  match rs with
  | [] => []
  | r :: rs' => Row n (record_cells cols r) :: number_rows (n + 1) cols rs'
  end.

(** [pd.json_normalize(records)] on flat objects: one row per object, NaN
    where an object lacks a member. *)
Definition json_normalize (rs : list record) : DataFrame :=
  let cols := union_keys rs in
  Frame cols (number_rows 0 cols rs).

(** *** selection, duplicates, unique values *)

(** [df[[c1, ..., cn]]]; the exception names the first missing label. *)
Definition select (df : DataFrame) (names : list string) : result DataFrame :=
  ps <- mapM (fun c => match position c (columns df) with
                       | Some i => Ok i
                       | None => Raise (KeyError c)
                       end) names ;;
  Ok (Frame names
            (map (fun r => Row (label r) (map (fun i => cell i r) ps)) (rows df))).

(** Lists are unhashable: pandas raises before it compares one. *)
Definition hashable (v : value) : bool :=
  match v with VList _ => false | _ => true end.

(** Equality of hashable cells as pandas groups them: numbers by value, NaN
    equal to NaN. *)
Definition value_eqb (a b : value) : bool :=
  match a, b with
  | VNaN, VNaN => true
  | VInt x, VInt y => Z.eqb x y
  | VInt x, VFloat q => Qeq_bool (inject_Z x) q
  | VFloat q, VInt x => Qeq_bool q (inject_Z x)
  | VFloat p, VFloat q => Qeq_bool p q
  | VStr s, VStr t => String.eqb s t
  | _, _ => false
  end.

Fixpoint cells_eqb (a b : list value) : bool :=
  match a, b with
  | [], [] => true
  | x :: a', y :: b' => value_eqb x y && cells_eqb a' b'
  | _, _ => false
  end.

(** Keep a row unless an earlier kept row has equal cells. *)
Fixpoint drop_dups (seen : list (list value)) (rs : list row) : list row :=
  match rs with
  | [] => []
  | r :: rs' =>
      if existsb (cells_eqb (cells r)) seen then drop_dups seen rs'
      else r :: drop_dups (cells r :: seen) rs'
  end.

(** [df.drop_duplicates()]: first occurrences, with their labels. *)
Definition drop_duplicates (df : DataFrame) : result DataFrame :=
  if forallb (fun r => forallb hashable (cells r)) (rows df)
  then Ok (Frame (columns df) (drop_dups [] (rows df)))
  else Raise (TypeError "unhashable type: 'list'").

Fixpoint uniq (seen : list value) (s : Series) : Series :=
  match s with
  | [] => []
  | v :: s' =>
      if existsb (value_eqb v) seen then uniq seen s'
      else v :: uniq (v :: seen) s'
  end.

(** [s.unique()]: the distinct values in order of first appearance. *)
Definition unique (s : Series) : result Series :=
  if forallb hashable s then Ok (uniq [] s)
  else Raise (TypeError "unhashable type: 'list'").

(** [pd.DataFrame(values, columns=[c])]. *)
Definition DataFrame_of (values : Series) (c : string) : DataFrame :=
  Frame [c] (relabel 0 (map (fun v => Row 0 [v]) values)).

(** [df.reset_index()]: the labels become the first column, named "index",
    or "level_0" when "index" is taken; fresh labels 0, 1, 2, ... *)
Definition reset_index (df : DataFrame) : result DataFrame :=
  let name := if mem "index" (columns df) then "level_0"%string else "index"%string in
  if mem name (columns df)
  then Raise (ValueError (String.append "cannot insert "
                            (String.append name ", already exists")))
  else Ok (Frame (name :: columns df)
                 (relabel 0 (map (fun r => Row (label r) (VInt (label r) :: cells r))
                                 (rows df)))).

(** [df.rename(columns=mapping)]: every label bound by the mapping is
    replaced, all at once. *)
Fixpoint renamed (mapping : list (string * string)) (c : string) : string :=
  match mapping with
  | [] => c
  | (old, new) :: mapping' => if String.eqb c old then new else renamed mapping' c
  end.

Definition rename (df : DataFrame) (mapping : list (string * string)) : DataFrame :=
  Frame (map (renamed mapping) (columns df)) (rows df).

(** *** merge *)

Definition matches (i j : nat) (a : row) (right : list row) : list row :=
  filter (fun b => value_eqb (cell i a) (cell j b)) right.

(** [left.merge(right, left_on=lk, right_on=rk, how='left')].  Both keys must
    be column labels.  Every left row is paired, in order, with the right
    rows of equal key, or with NaN when there is none.  A label carried by
    both frames gets the suffix "_x" on the left and "_y" on the right. *)
Definition merge_left (left right : DataFrame) (lk rk : string) : result DataFrame :=
  match position rk (columns right) with
  | None => Raise (KeyError rk)
  | Some j =>
      match position lk (columns left) with
      | None => Raise (KeyError lk)
      | Some i =>
          if forallb (fun a => hashable (cell i a)) (rows left)
             && forallb (fun b => hashable (cell j b)) (rows right)
          then
            let lcols := map (fun c => if mem c (columns right)
                                       then String.append c "_x" else c)
                             (columns left) in
            let rcols := map (fun c => if mem c (columns left)
                                       then String.append c "_y" else c)
                             (columns right) in
            let blank := map (fun _ => VNaN) (columns right) in
            let pair a :=
              match matches i j a (rows right) with
              | [] => [Row 0 (cells a ++ blank)]
              | ms => map (fun b => Row 0 (cells a ++ cells b)) ms
              end in
            Ok (Frame (lcols ++ rcols) (relabel 0 (flat_map pair (rows left))))
          else Raise (TypeError "unhashable type: 'list'")
      end
  end.

End pd.

Import pd.

(* ================================================================== *)
(** ** The world the pipeline runs in *)

(** What the process leaves behind: the lines printed, the figures shown,
    the rows appended to the database, table by table.  [calls] is a ghost
    trace of the functions of [main.py] that were entered. *)
Record world : Type := World {
  stdout : list string;
  figures : nat;
  database : list (string * DataFrame);
  calls : list string
}.

Definition initial : world := World [] 0 [] [].

(** A computation changes the world and returns or raises. *)
Definition M (A : Type) : Type := world -> result A * world.

Definition ret {A} (a : A) : M A := fun w => (Ok a, w).

Definition raise {A} (e : exn) : M A := fun w => (Raise e, w).

Definition bindM {A B} (m : M A) (k : A -> M B) : M B :=
  fun w => match m w with
           | (Ok a, w') => k a w'
           | (Raise e, w') => (Raise e, w')
           end.

Notation "x <~ m ;; k" := (bindM m (fun x => k))
  (at level 61, m at next level, right associativity).
Notation "m ;;; k" := (bindM m (fun _ => k))
  (at level 61, right associativity).

Definition lift {A} (r : result A) : M A := fun w => (r, w).

(** [try: body / except Exception as e: handler e]. *)
Definition try_except {A} (body : M A) (handler : exn -> M A) : M A :=
  fun w => match body w with
           | (Ok a, w') => (Ok a, w')
           | (Raise e, w') => handler e w'
           end.

Definition print (line : string) : M unit :=
  fun w => (Ok tt, World (stdout w ++ [line]) (figures w) (database w) (calls w)).

Definition enter (name : string) : M unit :=
  fun w => (Ok tt, World (stdout w) (figures w) (database w) (calls w ++ [name])).

Definition show : M unit :=
  fun w => (Ok tt, World (stdout w) (S (figures w)) (database w) (calls w)).

Definition append_rows (table : string) (df : DataFrame) : M unit :=
  fun w => (Ok tt, World (stdout w) (figures w) (database w ++ [(table, df)]) (calls w)).

(** What lies outside the program: the files, and whether matplotlib and
    SQLAlchemy fail. *)
Record environment : Type := Environment {
  fs : string -> file_state;
  plt_error : DataFrame -> option exn;
  create_engine_error : string -> option exn;
  create_all_error : option exn;
  to_sql_error : string -> DataFrame -> option exn
}.

Definition external (failure : option exn) : M unit :=
  match failure with
  | Some e => raise e
  | None => ret tt
  end.

(* ================================================================== *)
(** ** main.py *)

Section Pipeline.

Variable E : environment.

(** *** load_and_preprocess_data *)

(** [lambda x: x[0] if isinstance(x, list) else x]. *)
Definition first_if_list (x : value) : result value :=
  match x with
  | VList (y :: _) => Ok y
  | VList [] => Raise (IndexError "list index out of range")
  | _ => Ok x
  end.

(** Lines 11 to 21: the flattened frame of the objects under [top_movies]. *)
Definition preprocess (top_movies : list record) : result DataFrame :=
  let df := json_normalize top_movies in
  df <- explode df "genre" ;;
  df <- explode df "cast" ;;
  genre <- getitem df "genre" ;;
  main_genre <- apply genre first_if_list ;;
  let df := setitem df "main_genre" main_genre in
  year <- getitem df "year" ;;
  tens <- floordiv10 year ;;
  floor <- mul10 tens ;;
  decade <- add_str (astype_str floor) "s" ;;
  let df := setitem df "decade" decade in
  let df := fillna0 df in
  year <- getitem df "year" ;;
  year <- astype_int64 year ;;
  let df := setitem df "year" year in
  rating <- getitem df "rating" ;;
  rating <- astype_float64 rating ;;
  let df := setitem df "rating" rating in
  Ok (reset_index_drop df).

(** The body of the [try] block. *)
Definition load (file_path : string) : result DataFrame :=
  json_data <- read_json (fs E) file_path ;;
  top_movies <- getitem_json json_data "top_movies" ;;
  preprocess top_movies.

Definition load_and_preprocess_data (file_path : string) : M DataFrame :=
  enter "load_and_preprocess_data" ;;;
  try_except (lift (load file_path))
    (fun e => print (String.append "Erro ao carregar dados: " (exn_str e)) ;;;
              raise e).

(** *** create_visualizations *)

(** The three aggregates are local values the function never uses; what is
    kept of them is where they raise: a missing column, a mean over a column
    that is not numeric, a count over unhashable cells. *)
Definition aggregates (df : DataFrame) : result unit :=
  _ <- getitem df "decade" ;;
  rating <- getitem df "rating" ;;
  _ <- match dtype_of rating with
       | object => Raise (TypeError "agg function failed [how->mean,dtype->object]")
       | _ => Ok tt
       end ;;
  director <- getitem df "director" ;;
  _ <- unique director ;;
  cast <- getitem df "cast" ;;
  _ <- unique cast ;;
  Ok tt.

Definition create_visualizations (df : DataFrame) : M unit :=
  enter "create_visualizations" ;;;
  try_except
    (lift (aggregates df) ;;;
     lift (_ <- getitem df "title" ;; getitem df "decade") ;;;
     external (plt_error E df) ;;;
     show)
    (fun e => print (String.append "Erro ao criar visualizações: " (exn_str e)) ;;;
              raise e).

(** *** prepare_database_tables *)

Definition movies_table (df : DataFrame) : result DataFrame :=
  t <- select df ["title"; "year"; "rating"; "synopsis"]%string ;;
  t <- drop_duplicates t ;;
  t <- reset_index t ;;
  Ok (rename t [("index", "id")]%string).

Definition directors_table (df : DataFrame) : result DataFrame :=
  director <- getitem df "director" ;;
  names <- unique director ;;
  t <- reset_index (DataFrame_of names "name") ;;
  Ok (rename t [("index", "id")]%string).

Definition genres_table (df : DataFrame) : result DataFrame :=
  genre <- getitem df "genre" ;;
  names <- unique genre ;;
  t <- reset_index (DataFrame_of names "name") ;;
  Ok (rename t [("index", "id")]%string).

Definition movie_director (df directors : DataFrame) : result DataFrame :=
  t <- select df ["title"]%string ;;
  t <- reset_index t ;;
  t <- merge_left t directors "director" "name" ;;
  t <- select t ["index"; "id_y"]%string ;;
  drop_duplicates (rename t [("index", "movie_id"); ("id_y", "director_id")]%string).

Definition movie_genre (df genres : DataFrame) : result DataFrame :=
  t <- select df ["title"; "genre"]%string ;;
  t <- reset_index t ;;
  t <- merge_left t genres "genre" "name" ;;
  t <- select t ["index"; "id_y"]%string ;;
  drop_duplicates (rename t [("index", "movie_id"); ("id_y", "genre_id")]%string).

Definition tables : Type :=
  (DataFrame * DataFrame * DataFrame * DataFrame * DataFrame)%type.

(** The body of the [try] block. *)
Definition build_tables (df : DataFrame) : result tables :=
  movies <- movies_table df ;;
  directors <- directors_table df ;;
  genres <- genres_table df ;;
  m_director <- movie_director df directors ;;
  m_genre <- movie_genre df genres ;;
  Ok (movies, directors, genres, m_director, m_genre).

Definition prepare_database_tables (df : DataFrame) : M tables :=
  enter "prepare_database_tables" ;;;
  try_except (lift (build_tables df))
    (fun e => print (String.append "Erro ao preparar tabelas: " (exn_str e)) ;;;
              raise e).

(** *** setup_database_engine *)

Inductive sqltype : Type := Integer | String_ | Float.

Record Column : Type := mkColumn {
  column_name : string;
  column_type : sqltype;
  primary_key : bool;
  foreign_key : option string
}.

Definition MetaData : Type := list (string * list Column).

Definition schema : MetaData :=
  [ ("movies", [ mkColumn "id" Integer true None;
                 mkColumn "title" String_ false None;
                 mkColumn "year" Integer false None;
                 mkColumn "rating" Float false None;
                 mkColumn "synopsis" String_ false None ]);
    ("directors", [ mkColumn "id" Integer true None;
                    mkColumn "name" String_ false None ]);
    ("genres", [ mkColumn "id" Integer true None;
                 mkColumn "name" String_ false None ]);
    ("movie_director", [ mkColumn "movie_id" Integer false (Some "movies.id");
                         mkColumn "director_id" Integer false (Some "directors.id") ]);
    ("movie_genre", [ mkColumn "movie_id" Integer false (Some "movies.id");
                      mkColumn "genre_id" Integer false (Some "genres.id") ]) ]%string.

(** The engine is its URL. *)
Definition setup_database_engine (db_name : string) : M (string * MetaData) :=
  enter "setup_database_engine" ;;;
  try_except
    (let url := String.append "sqlite:///" db_name in
     external (create_engine_error E url) ;;;
     ret (url, schema))
    (fun e => print (String.append "Erro ao configurar banco de dados: " (exn_str e)) ;;;
              raise e).

(** *** export_to_database *)

(** [df.to_sql(name, engine, if_exists='append', index=False)] over the items
    of the dict, in insertion order. *)
Fixpoint write_all (tables : list (string * DataFrame)) : M unit :=
  match tables with
  | [] => ret tt
  | (table_name, df) :: rest =>
      external (to_sql_error E table_name df) ;;;
      append_rows table_name df ;;;
      write_all rest
  end.

Definition export_to_database (engine : string) (metadata : MetaData)
    (tables : list (string * DataFrame)) : M unit :=
  enter "export_to_database" ;;;
  try_except
    (external (create_all_error E) ;;;
     write_all tables ;;;
     print "Dados exportados com sucesso para o banco de dados!")
    (fun e => print (String.append "Erro ao exportar para o banco de dados: " (exn_str e)) ;;;
              raise e).

(** *** main *)

(** The body of the [try] block. *)
Definition pipeline : M unit :=
  df <~ load_and_preprocess_data "dataset/movies.json" ;;
  create_visualizations df ;;;
  t <~ prepare_database_tables df ;;
  let '(movies, directors, genres, m_director, m_genre) := t in
  em <~ setup_database_engine "cinemalytics.db" ;;
  let '(engine, metadata) := em in
  let tables := [ ("movies", movies);
                  ("directors", directors);
                  ("genres", genres);
                  ("movie_director", m_director);
                  ("movie_genre", m_genre) ]%string in
  export_to_database engine metadata tables.

Definition main : M unit :=
  try_except pipeline
    (fun e => print (String.append "Erro na execução: " (exn_str e))).

End Pipeline.

(* ================================================================== *)
(** ** Vocabulary of the statements *)

(** The member [k] of a movie object, NaN when the object lacks it: the cell
    [json_normalize] builds. *)
Definition field (k : string) (r : record) : value :=
  match lookup k r with
  | Some v => v
  | None => VNaN
  end.

(** [len(x)] of a list-valued member. *)
Definition len (v : value) : nat :=
  match v with
  | VList l => List.length l
  | _ => 0
  end.

(** The number of rows one member explodes to. *)
Definition entries (v : value) : nat := List.length (explode_cell v).

Fixpoint sum (l : list nat) : nat :=
  match l with
  | [] => 0
  | n :: l' => n + sum l'
  end.

Definition is_str (v : value) : bool :=
  match v with VStr _ => true | _ => false end.

Definition str_or_strs (v : value) : bool :=
  match v with
  | VStr _ => true
  | VList l => forallb is_str l
  | _ => false
  end.

(** A movie object of the documented input format: title, synopsis and
    director are strings, year an integer, rating a number, genre and cast a
    string or a list of strings. *)
Definition valid_record (r : record) : bool :=
  is_str (field "title" r) && is_int (field "year" r)
  && (is_int (field "rating" r) || match field "rating" r with VFloat _ => true | _ => false end)
  && is_str (field "synopsis" r) && is_str (field "director" r)
  && str_or_strs (field "genre" r) && str_or_strs (field "cast" r).

(** The frame after line 13, whose labels still name the record a row comes
    from. *)
Definition exploded (top_movies : list record) : result DataFrame :=
  df <- explode (json_normalize top_movies) "genre" ;;
  explode df "cast".

(** For each flattened row, in order, the position in the document of the
    record it was exploded from. *)
Definition origins (top_movies : list record) : list nat :=
  match exploded top_movies with
  | Ok df => map (fun r => Z.to_nat (label r)) (rows df)
  | Raise _ => []
  end.

(** Every row has one cell per column. *)
Definition wf (df : DataFrame) : Prop :=
  Forall (fun r => List.length (cells r) = List.length (columns df)) (rows df).

(** The frame the loader returns, as a function of the exploded frame and of
    the four columns computed from it. *)
Definition assemble (ex : DataFrame) (main_genre decade year rating : Series) : DataFrame :=
  reset_index_drop
    (setitem (setitem (fillna0 (setitem (setitem ex "main_genre" main_genre)
                                        "decade" decade))
                      "year" year)
             "rating" rating).

(** The rows one row explodes to over two distinct columns: the cross
    product of the two expansions, the first column varying slowest. *)
Definition cross (i j : nat) (r : row) : list row :=
  map (fun p => set_cell j (snd p) (set_cell i (fst p) r))
      (list_prod (explode_cell (cell i r)) (explode_cell (cell j r))).

(** The (genre, cast) combinations of a document, record by record: the
    cross product of the two expansions. *)
Definition pairs (top_movies : list record) : list (value * value) :=
  flat_map (fun r => list_prod (explode_cell (field "genre" r))
                               (explode_cell (field "cast" r)))
           top_movies.

(** *** Documents used as examples *)

Definition movie (title : string) (year : option Z) (genre cast : value) : record :=
  (("title"%string, VStr title)
   :: match year with Some y => [("year"%string, VInt y)] | None => [] end)
  ++ [("rating"%string, VFloat 8); ("synopsis"%string, VStr "s");
      ("director"%string, VStr "D"); ("genre"%string, genre); ("cast"%string, cast)].

(** The document of the scenario:
    [{"top_movies":[{"title":"A","year":1999,"rating":8.0,"synopsis":"s",
      "director":"D","genre":["Drama","Crime"],"cast":["X","Y"]}]}]. *)
Definition scenario : list record :=
  [movie "A" (Some 1999) (VList [VStr "Drama"; VStr "Crime"]) (VList [VStr "X"; VStr "Y"])].

(** A movie whose genre list is empty. *)
Definition no_genre : list record :=
  [movie "A" (Some 1999) (VList []) (VList [VStr "X"])].

(** Two movies, the second without a year. *)
Definition one_year_missing : list record :=
  [movie "A" (Some 1994) (VStr "Drama") (VStr "X");
   movie "B" None (VStr "Crime") (VStr "Y")].

(** Two movies of four flattened rows each. *)
Definition two_movies : list record :=
  [movie "A" (Some 1999) (VList [VStr "Drama"; VStr "Crime"]) (VList [VStr "X"; VStr "Y"]);
   movie "B" (Some 2005) (VList [VStr "Drama"; VStr "War"]) (VList [VStr "X"; VStr "Z"])].

(** The frame a document is loaded to, empty when loading raises. *)
Definition loaded (top_movies : list record) : DataFrame :=
  match preprocess top_movies with
  | Ok df => df
  | Raise _ => Frame [] []
  end.

(** A movie without a title. *)
Definition untitled : list record :=
  [[("year"%string, VInt 1999); ("rating"%string, VFloat 8);
    ("director"%string, VStr "D"); ("genre"%string, VList [VStr "Drama"]);
    ("cast"%string, VList [VStr "X"])]].


(** An environment in which every path holds [file] and neither matplotlib
    nor SQLAlchemy fails. *)
Definition env_of (file : file_state) : environment :=
  Environment (fun _ => file) (fun _ => None) (fun _ => None) None (fun _ _ => None).

(** An input file with the movies [d] under "top_movies". *)
Definition document (d : list record) : file_state :=
  Object [("top_movies"%string, d)].

(** The messages of the five components. *)
Definition component_messages : list string :=
  [ "Erro ao carregar dados: ";
    "Erro ao criar visualizações: ";
    "Erro ao preparar tabelas: ";
    "Erro ao configurar banco de dados: ";
    "Erro ao exportar para o banco de dados: " ]%string.

Definition add_line (w : world) (line : string) : world :=
  World (stdout w ++ [line]) (figures w) (database w) (calls w).

Definition add_call (w : world) (name : string) : world :=
  World (stdout w) (figures w) (database w) (calls w ++ [name]).

Definition has_member (k : string) (members : list (string * list record)) : bool :=
  existsb (fun m => String.eqb k (fst m)) members.

(** The loader fails with [e]: it prints its message and raises [e]. *)
Definition load_fails (E : environment) (path : string) (w : world) (e : exn) : Prop :=
  load_and_preprocess_data E path w
  = (Raise e,
     add_line (add_call w "load_and_preprocess_data")
              (String.append "Erro ao carregar dados: " (exn_str e))).

(** The five columns the visualizer reads. *)
Definition visualized_columns : list string :=
  ["decade"; "rating"; "director"; "cast"; "title"]%string.


(** An environment in which [metadata.create_all] fails. *)
Definition env_no_schema (file : file_state) (e : exn) : environment :=
  Environment (fun _ => file) (fun _ => None) (fun _ => None) (Some e) (fun _ _ => None).

(** Three small tables to export. *)
Definition sample_movies : string * DataFrame :=
  ("movies"%string, Frame ["id"; "title"]%string [Row 0 [VInt 0; VStr "A"]]).

Definition sample_directors : string * DataFrame :=
  ("directors"%string, Frame ["id"; "name"]%string [Row 0 [VInt 0; VStr "D"]]).

Definition sample_genres : string * DataFrame :=
  ("genres"%string, Frame ["id"; "name"]%string [Row 0 [VInt 0; VStr "Drama"]]).

Definition sample_tables : list (string * DataFrame) :=
  [sample_movies; sample_directors; sample_genres].


Definition cannot_open : exn :=
  ExternalError "OperationalError" "unable to open database file".



(** The foreign keys of a schema: each names "table.column". *)
Definition foreign_keys (m : MetaData) : list string :=
  flat_map (fun t => flat_map (fun c => match foreign_key c with
                                        | Some k => [k]
                                        | None => []
                                        end) (snd t)) m.

(** The primary keys of a schema, as "table.column". *)
Definition primary_keys (m : MetaData) : list string :=
  flat_map (fun t => flat_map (fun c => if primary_key c
                                        then [String.append (fst t)
                                                (String.append "." (column_name c))]
                                        else []) (snd t)) m.

(** What an entity table over the values [column] is: ids 0, 1, 2, ... beside
    the distinct values, each value of the column equal to one name, each
    name the first of the values equal to it. *)
Definition entity_table_of (column : Series) (t : DataFrame) : Prop :=
  exists names,
    columns t = ["id"; "name"]%string /\
    getitem t "id" = Ok (map (fun k => VInt (Z.of_nat k)) (seq 0 (List.length names))) /\
    getitem t "name" = Ok names /\
    ForallOrdPairs (fun a b => value_eqb b a = false) names /\
    (forall v, In v column -> exists n, In n names /\ value_eqb v n = true) /\
    (forall n, In n names ->
       exists pre post,
         column = pre ++ n :: post /\
         forall v, In v pre -> value_eqb v n = false).

(** A movie whose year is a string. *)
Definition year_as_text : list record :=
  [[("title"%string, VStr "A"); ("year"%string, VStr "1994");
    ("rating"%string, VFloat 8); ("genre"%string, VStr "Drama");
    ("cast"%string, VStr "X")]].

(** A movie without a cast member. *)
Definition no_cast_key : list record :=
  [[("title"%string, VStr "A"); ("year"%string, VInt 1994);
    ("rating"%string, VFloat 8); ("genre"%string, VStr "Drama")]].

(** The columns of the movies table's projection. *)
Definition movie_columns : list string :=
  ["title"; "year"; "rating"; "synopsis"]%string.


(* ================================================================== *)
(** ** Lists, positions and results *)

Section ListFacts.

Context {A B : Type}.

Lemma mapM_length (f : A -> result B) l l' :
  mapM f l = Ok l' -> List.length l' = List.length l.
Proof.
  revert l'; induction l as [|x l IH]; simpl; intros l' H.
  - injection H as <-. reflexivity.
  - destruct (f x); simpl in H; [|discriminate].
    destruct (mapM f l); simpl in H; [|discriminate].
    injection H as <-. simpl. f_equal. now apply IH.
Qed.

Lemma mapM_Forall2 (f : A -> result B) l l' :
  mapM f l = Ok l' -> Forall2 (fun x y => f x = Ok y) l l'.
Proof.
  revert l'; induction l as [|x l IH]; simpl; intros l' H.
  - injection H as <-. constructor.
  - destruct (f x) eqn:Hx; simpl in H; [|discriminate].
    destruct (mapM f l); simpl in H; [|discriminate].
    injection H as <-. constructor; auto.
Qed.

Lemma mapM_map (f : A -> result B) (g : A -> B) l :
  Forall (fun x => f x = Ok (g x)) l -> mapM f l = Ok (map g l).
Proof.
  induction 1 as [|x l Hx _ IH]; simpl.
  - reflexivity.
  - now rewrite Hx, IH.
Qed.


Lemma set_nth_length (i : nat) (v : A) l :
  List.length (set_nth i v l) = List.length l.
Proof.
  revert i; induction l as [|x l IH]; intros [|i]; simpl; auto.
Qed.

Lemma nth_set_nth_same (i : nat) (v d : A) l :
  (i < List.length l)%nat -> nth i (set_nth i v l) d = v.
Proof.
  revert i; induction l as [|x l IH]; intros [|i]; simpl; intros H;
    try lia; auto. apply IH. lia.
Qed.

Lemma nth_set_nth_other (i j : nat) (v d : A) l :
  i <> j -> nth j (set_nth i v l) d = nth j l d.
Proof.
  revert i j; induction l as [|x l IH]; intros [|i] [|j]; simpl; intros H;
    try congruence; auto.
Qed.

Lemma flat_map_length_sum (f : A -> list B) l :
  List.length (flat_map f l) = sum (map (fun x => List.length (f x)) l).
Proof.
  induction l as [|x l IH]; simpl; [reflexivity|].
  now rewrite length_app, IH.
Qed.

Lemma map_combine_map (F : B -> A -> A) (g : A -> B) l :
  map (fun rv => F (snd rv) (fst rv)) (combine l (map g l)) = map (fun r => F (g r) r) l.
Proof.
  induction l as [|x l IH]; simpl; [reflexivity|]. now rewrite IH.
Qed.

Lemma map_fst_combine (l : list A) (s : list B) :
  List.length s = List.length l -> map fst (combine l s) = l.
Proof.
  revert s; induction l as [|x l IH]; intros [|y s]; simpl; intros H;
    try discriminate; auto. f_equal. apply IH. lia.
Qed.

Lemma map_snd_combine (l : list A) (s : list B) :
  List.length s = List.length l -> map snd (combine l s) = s.
Proof.
  revert s; induction l as [|x l IH]; intros [|y s]; simpl; intros H;
    try discriminate; auto. f_equal. apply IH. lia.
Qed.

End ListFacts.

Lemma position_lt c cols i :
  position c cols = Some i -> (i < List.length cols)%nat.
Proof.
  revert i; induction cols as [|c' cols IH]; simpl; intros i H; [discriminate|].
  destruct (String.eqb c c').
  - injection H as <-. lia.
  - destruct (position c cols); [|discriminate].
    injection H as <-. specialize (IH _ eq_refl). lia.
Qed.

Lemma position_nth c cols i :
  position c cols = Some i -> nth i cols ""%string = c.
Proof.
  revert i; induction cols as [|c' cols IH]; simpl; intros i H; [discriminate|].
  destruct (String.eqb c c') eqn:Hc.
  - injection H as <-. symmetry. now apply String.eqb_eq.
  - destruct (position c cols); [|discriminate].
    injection H as <-. now apply IH.
Qed.

Lemma position_inj c c' cols i :
  position c cols = Some i -> position c' cols = Some i -> c = c'.
Proof.
  intros H H'. apply position_nth in H, H'. congruence.
Qed.

Lemma position_mem c cols :
  mem c cols = true <-> exists i, position c cols = Some i.
Proof.
  unfold mem. induction cols as [|c' cols IH]; simpl.
  - split; [discriminate|intros [i H]; discriminate].
  - destruct (String.eqb c c'); simpl.
    + split; eauto.
    + rewrite IH. split; intros [i H].
      * rewrite H. eauto.
      * destruct (position c cols); [eauto|discriminate].
Qed.

Lemma position_not_mem c cols :
  mem c cols = false <-> position c cols = None.
Proof.
  destruct (position c cols) eqn:H.
  - assert (mem c cols = true) as -> by (apply position_mem; eauto).
    split; discriminate.
  - destruct (mem c cols) eqn:Hm; [|tauto].
    apply position_mem in Hm as [i Hi]. congruence.
Qed.

Lemma position_app_l c cols extra i :
  position c cols = Some i -> position c (cols ++ extra) = Some i.
Proof.
  revert i; induction cols as [|c' cols IH]; simpl; intros i H; [discriminate|].
  destruct (String.eqb c c'); [assumption|].
  destruct (position c cols); [|discriminate].
  now rewrite (IH _ eq_refl).
Qed.

Lemma position_app_new c cols :
  position c cols = None -> position c (cols ++ [c]) = Some (List.length cols).
Proof.
  induction cols as [|c' cols IH]; simpl; intros H.
  - now rewrite String.eqb_refl.
  - destruct (String.eqb c c'); [discriminate|].
    destruct (position c cols); [discriminate|]. now rewrite IH.
Qed.

Lemma position_app_other c c' cols :
  c' <> c -> position c' cols = None -> position c' (cols ++ [c]) = None.
Proof.
  intros Hne. induction cols as [|c0 cols IH]; simpl; intros H.
  - apply String.eqb_neq in Hne. now rewrite Hne.
  - destruct (String.eqb c' c0); [discriminate|].
    destruct (position c' cols); [discriminate|]. now rewrite IH.
Qed.

(* ================================================================== *)
(** ** Columns of a frame under assignment, filling and explosion *)

Lemma getitem_length df c s :
  getitem df c = Ok s -> List.length s = List.length (rows df).
Proof.
  unfold getitem. destruct (position c (columns df)); [|discriminate].
  intros H; injection H as <-. apply length_map.
Qed.

Lemma setitem_rows_length df c s :
  List.length s = List.length (rows df) ->
  List.length (rows (setitem df c s)) = List.length (rows df).
Proof.
  intros H. unfold setitem.
  destruct (position c (columns df)); simpl;
    rewrite length_map, length_combine; lia.
Qed.

Lemma setitem_wf df c s : wf df -> wf (setitem df c s).
Proof.
  unfold wf, setitem. intros H.
  destruct (position c (columns df)); simpl; apply Forall_forall;
    intros r Hr; apply in_map_iff in Hr as [[r0 v] [<- Hin]];
    apply in_combine_l in Hin; rewrite Forall_forall in H;
    specialize (H _ Hin); simpl.
  - now rewrite set_nth_length.
  - rewrite !length_app. simpl. lia.
Qed.

Lemma setitem_labels df c s :
  List.length s = List.length (rows df) ->
  map label (rows (setitem df c s)) = map label (rows df).
Proof.
  intros H. unfold setitem.
  destruct (position c (columns df)); simpl; rewrite map_map; simpl;
    rewrite <- (map_map fst label); now rewrite map_fst_combine.
Qed.

Lemma getitem_setitem_same df c s :
  wf df -> List.length s = List.length (rows df) ->
  getitem (setitem df c s) c = Ok s.
Proof.
  intros Hwf Hlen. unfold getitem, setitem.
  destruct (position c (columns df)) as [i|] eqn:Hp; simpl.
  - rewrite Hp. f_equal. rewrite map_map.
    rewrite <- (map_snd_combine (rows df) s Hlen) at 2.
    apply map_ext_in. intros [r v] Hin. simpl. unfold cell. simpl.
    apply nth_set_nth_same. apply in_combine_l in Hin.
    unfold wf in Hwf. rewrite Forall_forall in Hwf. rewrite (Hwf _ Hin).
    eapply position_lt; eauto.
  - rewrite (position_app_new _ _ Hp). f_equal. rewrite map_map.
    rewrite <- (map_snd_combine (rows df) s Hlen) at 2.
    apply map_ext_in. intros [r v] Hin. simpl. unfold cell. simpl.
    apply in_combine_l in Hin.
    unfold wf in Hwf. rewrite Forall_forall in Hwf. rewrite <- (Hwf _ Hin).
    rewrite app_nth2 by lia. now rewrite Nat.sub_diag.
Qed.

Lemma getitem_setitem_other df c c' s :
  wf df -> List.length s = List.length (rows df) -> c' <> c ->
  getitem (setitem df c s) c' = getitem df c'.
Proof.
  intros Hwf Hlen Hne. unfold getitem, setitem.
  destruct (position c (columns df)) as [i|] eqn:Hp; simpl.
  - destruct (position c' (columns df)) as [j|] eqn:Hp'; [|reflexivity].
    f_equal. rewrite map_map.
    rewrite <- (map_fst_combine (rows df) s Hlen) at 2. rewrite map_map.
    apply map_ext. intros [r v]. simpl. unfold cell. simpl.
    apply nth_set_nth_other. intros ->. apply Hne. eapply position_inj; eauto.
  - destruct (position c' (columns df)) as [j|] eqn:Hp'.
    + rewrite (position_app_l _ _ _ _ Hp'). f_equal. rewrite map_map.
      rewrite <- (map_fst_combine (rows df) s Hlen) at 2. rewrite map_map.
      apply map_ext_in. intros [r v] Hin. simpl. unfold cell. simpl.
      apply in_combine_l in Hin.
      unfold wf in Hwf. rewrite Forall_forall in Hwf.
      apply app_nth1. rewrite (Hwf _ Hin). eapply position_lt; eauto.
    + now rewrite (position_app_other _ _ _ Hne Hp').
Qed.

Lemma fillna0_wf df : wf df -> wf (fillna0 df).
Proof.
  unfold wf, fillna0. simpl. intros H. apply Forall_forall.
  intros r Hr. apply in_map_iff in Hr as [r0 [<- Hin]]. simpl.
  rewrite length_map. rewrite Forall_forall in H. now apply H.
Qed.

Lemma getitem_fillna0 df c s :
  wf df -> getitem df c = Ok s -> getitem (fillna0 df) c = Ok (map fill_cell s).
Proof.
  intros Hwf. unfold getitem, fillna0. simpl.
  destruct (position c (columns df)) as [i|] eqn:Hp; [|discriminate].
  intros H; injection H as <-. f_equal. rewrite !map_map.
  apply map_ext_in. intros r Hin. unfold cell. simpl.
  unfold wf in Hwf. rewrite Forall_forall in Hwf.
  rewrite (nth_indep _ VNaN (fill_cell VNaN)).
  - apply map_nth.
  - rewrite length_map, (Hwf _ Hin). eapply position_lt; eauto.
Qed.

Lemma getitem_fillna0_none df c e :
  getitem df c = Raise e -> getitem (fillna0 df) c = Raise e.
Proof.
  unfold getitem, fillna0. simpl. now destruct (position c (columns df)).
Qed.

Lemma relabel_cells n rs : map cells (relabel n rs) = map cells rs.
Proof.
  revert n; induction rs as [|r rs IH]; intros n; simpl; [reflexivity|].
  now rewrite IH.
Qed.

Lemma relabel_length n rs : List.length (relabel n rs) = List.length rs.
Proof.
  rewrite <- (length_map cells), relabel_cells. apply length_map.
Qed.

Lemma getitem_reset_index_drop df c :
  getitem (reset_index_drop df) c = getitem df c.
Proof.
  unfold getitem, reset_index_drop. simpl.
  destruct (position c (columns df)); [|reflexivity]. f_equal.
  unfold cell. rewrite <- (map_map cells (fun l => nth n l VNaN)).
  rewrite relabel_cells. now rewrite map_map.
Qed.

Lemma explode_wf df c df' : wf df -> explode df c = Ok df' -> wf df'.
Proof.
  unfold wf, explode. intros Hwf.
  destruct (position c (columns df)); [|discriminate].
  intros H; injection H as <-. simpl. apply Forall_forall.
  intros r Hr. apply in_flat_map in Hr as [r0 [Hin Hr]].
  unfold explode_row in Hr. apply in_map_iff in Hr as [v [<- _]]. simpl.
  rewrite set_nth_length. rewrite Forall_forall in Hwf. now apply Hwf.
Qed.

Lemma explode_columns df c df' : explode df c = Ok df' -> columns df' = columns df.
Proof.
  unfold explode. destruct (position c (columns df)); [|discriminate].
  intros H; now injection H as <-.
Qed.

(* ================================================================== *)
(** ** The loader, column by column *)

Lemma number_rows_wf n cols rs :
  Forall (fun r => List.length (cells r) = List.length cols) (number_rows n cols rs).
Proof.
  revert n; induction rs as [|r rs IH]; intros n; simpl; constructor; auto.
  simpl. unfold record_cells. apply length_map.
Qed.

Lemma json_normalize_wf d : wf (json_normalize d).
Proof. apply number_rows_wf. Qed.

Lemma exploded_wf d ex : exploded d = Ok ex -> wf ex.
Proof.
  unfold exploded. destruct (explode (json_normalize d) "genre") as [df|] eqn:H1;
    simpl; [|discriminate].
  intros H2. eapply explode_wf; [|exact H2].
  eapply explode_wf; [apply json_normalize_wf|exact H1].
Qed.

Lemma floordiv10_length s s' : floordiv10 s = Ok s' -> List.length s' = List.length s.
Proof.
  unfold floordiv10. destruct (dtype_of s); intros H; try discriminate;
    injection H as <-; apply length_map.
Qed.

Lemma mul10_length s s' : mul10 s = Ok s' -> List.length s' = List.length s.
Proof.
  unfold mul10. destruct (dtype_of s); intros H; try discriminate;
    injection H as <-; apply length_map.
Qed.

Lemma decade_length year tens floor decade :
  floordiv10 year = Ok tens -> mul10 tens = Ok floor ->
  add_str (astype_str floor) "s" = Ok decade ->
  List.length decade = List.length year.
Proof.
  intros H1 H2 H3. apply floordiv10_length in H1. apply mul10_length in H2.
  apply mapM_length in H3. unfold astype_str in H3. rewrite length_map in H3.
  congruence.
Qed.

(** Every column the loader reads is a column of the exploded frame: the
    assignments in between do not touch it. *)
Lemma preprocess_unfold d :
  preprocess d =
    (ex <- exploded d ;;
     genre <- getitem ex "genre" ;;
     main_genre <- apply genre first_if_list ;;
     year <- getitem ex "year" ;;
     tens <- floordiv10 year ;;
     floor <- mul10 tens ;;
     decade <- add_str (astype_str floor) "s" ;;
     year' <- astype_int64 (map fill_cell year) ;;
     rating <- getitem ex "rating" ;;
     rating' <- astype_float64 (map fill_cell rating) ;;
     Ok (assemble ex main_genre decade year' rating')).
Proof.
  unfold preprocess, exploded.
  destruct (explode (json_normalize d) "genre") as [df1|] eqn:H1; simpl; [|reflexivity].
  destruct (explode df1 "cast") as [ex|] eqn:H2; simpl; [|reflexivity].
  assert (Hwf : wf ex).
  { apply (exploded_wf d). unfold exploded. now rewrite H1. }
  destruct (getitem ex "genre") as [g|] eqn:Hg; simpl; [|reflexivity].
  unfold apply.
  destruct (mapM first_if_list g) as [mg|] eqn:Hmg; simpl; [|reflexivity].
  assert (Lmg : List.length mg = List.length (rows ex)).
  { rewrite (mapM_length _ _ _ Hmg). eapply getitem_length; eauto. }
  rewrite (getitem_setitem_other ex "main_genre" "year" mg Hwf Lmg) by discriminate.
  destruct (getitem ex "year") as [y|] eqn:Hy; simpl; [|reflexivity].
  destruct (floordiv10 y) as [tens|] eqn:Ht; simpl; [|reflexivity].
  destruct (mul10 tens) as [fl|] eqn:Hf; simpl; [|reflexivity].
  destruct (add_str (astype_str fl) "s") as [dec|] eqn:Hd; simpl; [|reflexivity].
  set (df2 := setitem ex "main_genre" mg).
  assert (Hwf2 : wf df2) by now apply setitem_wf.
  assert (Ldec : List.length dec = List.length (rows df2)).
  { rewrite (decade_length _ _ _ _ Ht Hf Hd). unfold df2.
    rewrite setitem_rows_length by assumption. eapply getitem_length; eauto. }
  set (df3 := setitem df2 "decade" dec).
  assert (Hwf3 : wf df3) by now apply setitem_wf.
  assert (Hy3 : getitem df3 "year" = Ok y).
  { unfold df3. rewrite getitem_setitem_other by (assumption || discriminate).
    unfold df2. rewrite getitem_setitem_other by (assumption || discriminate).
    assumption. }
  rewrite (getitem_fillna0 _ _ _ Hwf3 Hy3). simpl.
  destruct (astype_int64 (map fill_cell y)) as [y'|] eqn:Hy'; simpl; [|reflexivity].
  set (df4 := fillna0 df3).
  assert (Hwf4 : wf df4) by now apply fillna0_wf.
  assert (Ly' : List.length y' = List.length (rows df4)).
  { rewrite (mapM_length _ _ _ Hy'), length_map. unfold df4, fillna0. simpl.
    rewrite length_map. unfold df3. rewrite setitem_rows_length by assumption.
    unfold df2. rewrite setitem_rows_length by assumption.
    eapply getitem_length; eauto. }
  rewrite getitem_setitem_other by (assumption || discriminate).
  assert (Hr4 : getitem df4 "rating" =
                match getitem ex "rating" with
                | Ok r => Ok (map fill_cell r)
                | Raise e => Raise e
                end).
  { assert (Hr3 : getitem df3 "rating" = getitem ex "rating").
    { unfold df3. rewrite getitem_setitem_other by (assumption || discriminate).
      unfold df2. now rewrite getitem_setitem_other by (assumption || discriminate). }
    destruct (getitem ex "rating") as [r|e] eqn:Hr.
    - now apply getitem_fillna0.
    - now apply getitem_fillna0_none. }
  rewrite Hr4. destruct (getitem ex "rating") as [r|e]; simpl; reflexivity.
Qed.

Lemma assemble_length ex mg dec y rt :
  List.length mg = List.length (rows ex) -> List.length dec = List.length (rows ex) ->
  List.length y = List.length (rows ex) -> List.length rt = List.length (rows ex) ->
  List.length (rows (assemble ex mg dec y rt)) = List.length (rows ex).
Proof.
  intros Lm Ld Ly Lr. unfold assemble, reset_index_drop. simpl.
  rewrite relabel_length.
  assert (L2 : List.length (rows (setitem (setitem ex "main_genre" mg) "decade" dec))
               = List.length (rows ex)).
  { rewrite setitem_rows_length; rewrite setitem_rows_length; congruence. }
  assert (L3 : List.length (rows (fillna0 (setitem (setitem ex "main_genre" mg) "decade" dec)))
               = List.length (rows ex)).
  { unfold fillna0 at 1. simpl. now rewrite length_map. }
  rewrite setitem_rows_length; rewrite setitem_rows_length; congruence.
Qed.

Section Assemble.

Variables (ex : DataFrame) (mg dec y rt : Series).
Hypothesis Hwf : wf ex.
Hypothesis Lm : List.length mg = List.length (rows ex).
Hypothesis Ld : List.length dec = List.length (rows ex).
Hypothesis Ly : List.length y = List.length (rows ex).
Hypothesis Lr : List.length rt = List.length (rows ex).

Let df2 := setitem ex "main_genre" mg.
Let df3 := setitem df2 "decade" dec.
Let df4 := fillna0 df3.
Let df5 := setitem df4 "year" y.

Local Lemma wf2 : wf df2. Proof. now apply setitem_wf. Qed.
Local Lemma wf3 : wf df3. Proof. apply setitem_wf, wf2. Qed.
Local Lemma wf4 : wf df4. Proof. apply fillna0_wf, wf3. Qed.
Local Lemma wf5 : wf df5. Proof. apply setitem_wf, wf4. Qed.

Local Lemma len2 : List.length (rows df2) = List.length (rows ex).
Proof. now apply setitem_rows_length. Qed.
Local Lemma len3 : List.length (rows df3) = List.length (rows ex).
Proof. unfold df3. rewrite setitem_rows_length; rewrite len2; auto. Qed.
Local Lemma len4 : List.length (rows df4) = List.length (rows ex).
Proof. unfold df4, fillna0. simpl. rewrite length_map. apply len3. Qed.
Local Lemma len5 : List.length (rows df5) = List.length (rows ex).
Proof. unfold df5. rewrite setitem_rows_length; rewrite len4; auto. Qed.

Lemma assemble_rating : getitem (assemble ex mg dec y rt) "rating" = Ok rt.
Proof.
  unfold assemble. rewrite getitem_reset_index_drop.
  apply getitem_setitem_same; [apply wf5|]. rewrite Lr. symmetry. apply len5.
Qed.

Lemma assemble_year : getitem (assemble ex mg dec y rt) "year" = Ok y.
Proof.
  unfold assemble. rewrite getitem_reset_index_drop.
  rewrite getitem_setitem_other; [|apply wf5| rewrite Lr; symmetry; apply len5|discriminate].
  apply getitem_setitem_same; [apply wf4|]. rewrite Ly. symmetry. apply len4.
Qed.

Lemma assemble_other c s :
  c <> "rating"%string -> c <> "year"%string ->
  getitem df3 c = Ok s ->
  getitem (assemble ex mg dec y rt) c = Ok (map fill_cell s).
Proof.
  intros H1 H2 H. unfold assemble. rewrite getitem_reset_index_drop.
  rewrite getitem_setitem_other; [|apply wf5| rewrite Lr; symmetry; apply len5|assumption].
  rewrite getitem_setitem_other; [|apply wf4| rewrite Ly; symmetry; apply len4|assumption].
  apply getitem_fillna0; [apply wf3|assumption].
Qed.

Lemma assemble_decade :
  getitem (assemble ex mg dec y rt) "decade" = Ok (map fill_cell dec).
Proof.
  apply assemble_other; try discriminate.
  apply getitem_setitem_same; [apply wf2|]. rewrite Ld. symmetry. apply len2.
Qed.

Lemma assemble_main_genre :
  getitem (assemble ex mg dec y rt) "main_genre" = Ok (map fill_cell mg).
Proof.
  apply assemble_other; try discriminate.
  unfold df3. rewrite getitem_setitem_other;
    [|apply wf2| rewrite Ld; symmetry; apply len2|discriminate].
  now apply getitem_setitem_same.
Qed.

Lemma assemble_kept c s :
  c <> "rating"%string -> c <> "year"%string ->
  c <> "decade"%string -> c <> "main_genre"%string ->
  getitem ex c = Ok s ->
  getitem (assemble ex mg dec y rt) c = Ok (map fill_cell s).
Proof.
  intros H1 H2 H3 H4 H. apply assemble_other; try assumption.
  unfold df3. rewrite getitem_setitem_other;
    [|apply wf2| rewrite Ld; symmetry; apply len2|assumption].
  unfold df2. now rewrite getitem_setitem_other.
Qed.

End Assemble.

(* ================================================================== *)
(** ** The exploded frame *)

Lemma flat_map_flat_map {A B C} (f : A -> list B) (g : B -> list C) l :
  flat_map g (flat_map f l) = flat_map (fun x => flat_map g (f x)) l.
Proof.
  induction l as [|x l IH]; simpl; [reflexivity|].
  now rewrite flat_map_app, IH.
Qed.

Lemma flat_map_map {A B C} (f : A -> B) (g : B -> list C) l :
  flat_map g (map f l) = flat_map (fun x => g (f x)) l.
Proof.
  induction l as [|x l IH]; simpl; [reflexivity|]. now rewrite IH.
Qed.

Lemma explode_row_twice i j r :
  i <> j -> flat_map (explode_row j) (explode_row i r) = cross i j r.
Proof.
  intros Hij. unfold cross, explode_row at 2.
  rewrite flat_map_map.
  induction (explode_cell (cell i r)) as [|v vs IH]; simpl; [reflexivity|].
  rewrite map_app, IH. f_equal.
  unfold explode_row. rewrite map_map. simpl.
  replace (cell j (set_cell i v r)) with (cell j r); [reflexivity|].
  unfold cell, set_cell. simpl. symmetry. now apply nth_set_nth_other.
Qed.

Lemma exploded_rows d ig ic :
  position "genre" (union_keys d) = Some ig ->
  position "cast" (union_keys d) = Some ic ->
  exploded d =
    Ok (Frame (union_keys d)
              (flat_map (cross ig ic) (number_rows 0 (union_keys d) d))).
Proof.
  intros Hg Hc. unfold exploded, explode, json_normalize. simpl.
  rewrite Hg. simpl. rewrite Hc. f_equal. f_equal.
  rewrite flat_map_flat_map. apply flat_map_ext. intros r.
  apply explode_row_twice. intros ->.
  pose proof (position_inj _ _ _ _ Hg Hc). discriminate.
Qed.

Lemma exploded_inv d ex :
  exploded d = Ok ex ->
  exists ig ic,
    position "genre" (union_keys d) = Some ig /\
    position "cast" (union_keys d) = Some ic /\
    ex = Frame (union_keys d)
               (flat_map (cross ig ic) (number_rows 0 (union_keys d) d)).
Proof.
  intros H.
  destruct (position "genre" (union_keys d)) as [ig|] eqn:Hg.
  - destruct (position "cast" (union_keys d)) as [ic|] eqn:Hc.
    + exists ig, ic. rewrite (exploded_rows d ig ic Hg Hc) in H.
      injection H as <-. auto.
    + unfold exploded, explode, json_normalize in H. simpl in H.
      rewrite Hg in H. simpl in H. rewrite Hc in H. discriminate.
  - unfold exploded, explode, json_normalize in H. simpl in H.
    rewrite Hg in H. discriminate.
Qed.

Lemma number_rows_In n cols d r0 :
  In r0 (number_rows n cols d) ->
  exists i r, nth_error d i = Some r /\ label r0 = n + Z.of_nat i /\
              cells r0 = record_cells cols r.
Proof.
  revert n; induction d as [|r d IH]; intros n; simpl; [tauto|].
  intros [<-|Hin].
  - exists O, r. simpl. repeat split. lia.
  - apply IH in Hin as (i & r' & Hi & Hl & Hc).
    exists (S i), r'. simpl. repeat split; auto. lia.
Qed.

Lemma record_cells_nth cols r j c :
  position c cols = Some j -> nth j (record_cells cols r) VNaN = field c r.
Proof.
  intros Hp. unfold record_cells. change (field c r) with ((fun c => field c r) c).
  change (map _ cols) with (map (fun c => field c r) cols).
  rewrite (nth_indep _ VNaN ((fun c => field c r) ""%string)).
  - rewrite (map_nth (fun c => field c r)). now rewrite (position_nth _ _ _ Hp).
  - rewrite length_map. eapply position_lt; eauto.
Qed.

(** Where a row of the exploded frame comes from: its label is the position
    of a record, its genre and cast cells are entries of that record's
    members, every other cell is the record's member. *)
Lemma exploded_row_origin d ex rw :
  exploded d = Ok ex -> In rw (rows ex) ->
  exists ig ic i r,
    position "genre" (columns ex) = Some ig /\
    position "cast" (columns ex) = Some ic /\
    nth_error d i = Some r /\ label rw = Z.of_nat i /\
    In (cell ig rw) (explode_cell (field "genre" r)) /\
    In (cell ic rw) (explode_cell (field "cast" r)) /\
    forall c j, position c (columns ex) = Some j ->
                c <> "genre"%string -> c <> "cast"%string ->
                cell j rw = field c r.
Proof.
  intros H Hin. apply exploded_inv in H as (ig & ic & Hg & Hc & ->).
  simpl in *. apply in_flat_map in Hin as (r0 & Hin0 & Hin).
  apply number_rows_In in Hin0 as (i & r & Hi & Hl & Hcells).
  unfold cross in Hin. apply in_map_iff in Hin as ([vg vc] & <- & Hp).
  apply in_prod_iff in Hp as [Hvg Hvc]. simpl.
  assert (Hne : ig <> ic).
  { intros ->. pose proof (position_inj _ _ _ _ Hg Hc). discriminate. }
  assert (Lg : (ig < List.length (cells r0))%nat).
  { rewrite Hcells. unfold record_cells. rewrite length_map. eapply position_lt; eauto. }
  assert (Lc : (ic < List.length (cells r0))%nat).
  { rewrite Hcells. unfold record_cells. rewrite length_map. eapply position_lt; eauto. }
  exists ig, ic, i, r. repeat split; auto.
  - unfold cell, set_cell. simpl.
    rewrite nth_set_nth_other by auto. rewrite nth_set_nth_same by auto.
    unfold cell in Hvg. rewrite Hcells, (record_cells_nth _ _ _ _ Hg) in Hvg. exact Hvg.
  - unfold cell, set_cell. simpl.
    rewrite nth_set_nth_same by (rewrite set_nth_length; auto).
    unfold cell in Hvc. rewrite Hcells, (record_cells_nth _ _ _ _ Hc) in Hvc. exact Hvc.
  - intros c j Hj Hcg Hcc. unfold cell, set_cell. simpl.
    rewrite !nth_set_nth_other.
    + rewrite Hcells. now apply record_cells_nth.
    + intros ->. apply Hcg. symmetry. eapply position_inj; eauto.
    + intros ->. apply Hcc. symmetry. eapply position_inj; eauto.
Qed.




(* ================================================================== *)
(** ** The decade column *)

Lemma dtype_int64_inv s : dtype_of s = int64 -> forallb is_int s = true.
Proof.
  unfold dtype_of. destruct (forallb is_int s); [reflexivity|].
  destruct (forallb is_number s); discriminate.
Qed.

Lemma dtype_float64_inv s :
  dtype_of s = float64 -> forallb is_int s = false /\ forallb is_number s = true.
Proof.
  unfold dtype_of. destruct (forallb is_int s); [discriminate|].
  destruct (forallb is_number s); [auto|discriminate].
Qed.


Lemma add_str_astype_str s suffix :
  add_str (astype_str s) suffix =
  Ok (map (fun v => VStr (String.append (str v) suffix)) s).
Proof.
  unfold add_str, astype_str.
  induction s as [|v s IH]; simpl; [reflexivity|]. now rewrite IH.
Qed.


(** On a column of integers the arithmetic is int64 arithmetic. *)
Lemma decade_of_ints year :
  forallb is_int year = true ->
  exists decade,
    (tens <- floordiv10 year ;; floor <- mul10 tens ;; add_str (astype_str floor) "s")
    = Ok decade /\
    forall k z, nth_error year k = Some (VInt z) ->
      nth_error decade k =
      Some (VStr (String.append (str_int (wrap64 (z / 10 * 10))) "s")).
Proof.
  intros Hint. unfold floordiv10, dtype_of. rewrite Hint. simpl.
  set (F := fun v => match v with VInt z => VInt (z / 10) | _ => v end).
  assert (Hint' : forallb is_int (map F year) = true).
  { apply forallb_forall. intros v Hv. apply in_map_iff in Hv as [x [<- Hx]].
    rewrite forallb_forall in Hint. specialize (Hint _ Hx). now destruct x. }
  unfold mul10, dtype_of. rewrite Hint'. simpl. rewrite add_str_astype_str.
  eexists. split; [reflexivity|].
  intros k z Hk. rewrite !nth_error_map, Hk. reflexivity.
Qed.

(* ================================================================== *)
(** ** What a successful load computed *)

Lemma preprocess_inv d out :
  preprocess d = Ok out ->
  exists ex genre main_genre year tens floor decade year' rating rating',
    exploded d = Ok ex /\
    getitem ex "genre" = Ok genre /\
    mapM first_if_list genre = Ok main_genre /\
    getitem ex "year" = Ok year /\
    floordiv10 year = Ok tens /\ mul10 tens = Ok floor /\
    add_str (astype_str floor) "s" = Ok decade /\
    astype_int64 (map fill_cell year) = Ok year' /\
    getitem ex "rating" = Ok rating /\
    astype_float64 (map fill_cell rating) = Ok rating' /\
    out = assemble ex main_genre decade year' rating'.
Proof.
  rewrite preprocess_unfold. unfold apply.
  destruct (exploded d) as [ex|] eqn:E1; simpl; [|discriminate].
  destruct (getitem ex "genre") as [g|] eqn:E2; simpl; [|discriminate].
  destruct (mapM first_if_list g) as [mg|] eqn:E3; simpl; [|discriminate].
  destruct (getitem ex "year") as [y|] eqn:E4; simpl; [|discriminate].
  destruct (floordiv10 y) as [tens|] eqn:E5; simpl; [|discriminate].
  destruct (mul10 tens) as [fl|] eqn:E6; simpl; [|discriminate].
  destruct (add_str (astype_str fl) "s") as [dec|] eqn:E7; simpl; [|discriminate].
  destruct (astype_int64 (map fill_cell y)) as [y'|] eqn:E8; simpl; [|discriminate].
  destruct (getitem ex "rating") as [rt|] eqn:E9; simpl; [|discriminate].
  destruct (astype_float64 (map fill_cell rt)) as [rt'|] eqn:E10; simpl; [|discriminate].
  intros H; injection H as <-.
  exists ex, g, mg, y, tens, fl, dec, y', rt, rt'. repeat split; assumption.
Qed.

(** The four computed columns have one cell per exploded row. *)
Lemma computed_lengths ex genre main_genre year tens floor decade year' rating rating' :
  getitem ex "genre" = Ok genre ->
  mapM first_if_list genre = Ok main_genre ->
  getitem ex "year" = Ok year ->
  floordiv10 year = Ok tens -> mul10 tens = Ok floor ->
  add_str (astype_str floor) "s" = Ok decade ->
  astype_int64 (map fill_cell year) = Ok year' ->
  getitem ex "rating" = Ok rating ->
  astype_float64 (map fill_cell rating) = Ok rating' ->
  List.length main_genre = List.length (rows ex) /\
  List.length decade = List.length (rows ex) /\
  List.length year' = List.length (rows ex) /\
  List.length rating' = List.length (rows ex).
Proof.
  intros Hg Hmg Hy Ht Hf Hd Hy' Hr Hr'.
  apply getitem_length in Hg, Hy, Hr.
  apply mapM_length in Hmg, Hy', Hr'. rewrite length_map in Hy', Hr'.
  pose proof (decade_length _ _ _ _ Ht Hf Hd).
  repeat split; congruence.
Qed.

Lemma preprocess_length d out :
  preprocess d = Ok out ->
  exists ex, exploded d = Ok ex /\ List.length (rows out) = List.length (rows ex).
Proof.
  intros H.
  apply preprocess_inv in H
    as (ex & g & mg & y & tens & fl & dec & y' & rt & rt' &
        Hex & Hg & Hmg & Hy & Ht & Hf & Hd & Hy' & Hr & Hr' & ->).
  destruct (computed_lengths _ _ _ _ _ _ _ _ _ _ Hg Hmg Hy Ht Hf Hd Hy' Hr Hr')
    as (L1 & L2 & L3 & L4).
  exists ex. split; [assumption|]. now apply assemble_length.
Qed.


(* ================================================================== *)
(** ** Documents of the input format load *)

Lemma add_keys_mono k cols r : mem k cols = true -> mem k (add_keys cols r) = true.
Proof.
  revert cols; induction r as [|[k' v] r IH]; intros cols H; simpl; [assumption|].
  apply IH. destruct (mem k' cols); [assumption|].
  unfold mem in *. rewrite existsb_app, H. reflexivity.
Qed.

Lemma add_keys_key k cols r v :
  lookup k r = Some v -> mem k (add_keys cols r) = true.
Proof.
  revert cols; induction r as [|[k' v'] r IH]; intros cols H; simpl in *; [discriminate|].
  destruct (String.eqb k k') eqn:Hk.
  - apply String.eqb_eq in Hk as <-. apply add_keys_mono.
    destruct (mem k cols) eqn:Hm; [assumption|].
    unfold mem. rewrite existsb_app. simpl. rewrite String.eqb_refl.
    now rewrite !orb_true_r.
  - now apply IH.
Qed.

Lemma fold_add_keys_mono k d cols :
  mem k cols = true -> mem k (fold_left add_keys d cols) = true.
Proof.
  revert cols; induction d as [|r d IH]; intros cols H; simpl; [assumption|].
  apply IH. now apply add_keys_mono.
Qed.

Lemma union_keys_mem k d r v :
  In r d -> lookup k r = Some v -> mem k (union_keys d) = true.
Proof.
  unfold union_keys. generalize (@nil string).
  induction d as [|r' d IH]; intros cols Hin Hl; simpl in *; [tauto|].
  destruct Hin as [->|Hin].
  - apply fold_add_keys_mono. eapply add_keys_key; eauto.
  - now apply IH.
Qed.

Lemma union_keys_position k d r :
  In r d -> field k r <> VNaN -> exists i, position k (union_keys d) = Some i.
Proof.
  intros Hin Hf. apply position_mem. unfold field in Hf.
  destruct (lookup k r) as [v|] eqn:Hl; [|congruence].
  eapply union_keys_mem; eauto.
Qed.

Lemma valid_record_fields r :
  valid_record r = true ->
  is_int (field "year" r) = true /\
  (is_int (field "rating" r) = true \/ exists q, field "rating" r = VFloat q) /\
  str_or_strs (field "genre" r) = true /\
  str_or_strs (field "cast" r) = true.
Proof.
  unfold valid_record. rewrite !andb_true_iff, orb_true_iff.
  intros [[[[[[_ Hy] Hr] _] _] Hg] Hc]. repeat split; auto.
  destruct Hr as [Hr|Hr]; [now left|right].
  destruct (field "rating" r); try discriminate. eauto.
Qed.

Lemma explode_cell_strs v x :
  str_or_strs v = true -> In x (explode_cell v) -> first_if_list x = Ok x.
Proof.
  destruct v as [| | |s|l]; simpl; try discriminate.
  - intros _ [<-|[]]. reflexivity.
  - intros Hl Hin. destruct l as [|y l]; simpl in Hin.
    + destruct Hin as [<-|[]]. reflexivity.
    + rewrite forallb_forall in Hl. specialize (Hl x Hin).
      destruct x; try discriminate. reflexivity.
Qed.

Lemma getitem_exploded_other d ex c s (P : value -> Prop) :
  exploded d = Ok ex -> getitem ex c = Ok s ->
  c <> "genre"%string -> c <> "cast"%string ->
  (forall r, In r d -> P (field c r)) -> Forall P s.
Proof.
  intros Hex Hs Hg Hc HP. unfold getitem in Hs.
  destruct (position c (columns ex)) as [j|] eqn:Hj; [|discriminate].
  injection Hs as <-. apply Forall_forall. intros v Hv.
  apply in_map_iff in Hv as (rw & <- & Hrw).
  destruct (exploded_row_origin _ _ _ Hex Hrw)
    as (ig & ic & i & r & _ & _ & Hi & _ & _ & _ & Hother).
  rewrite (Hother c j Hj Hg Hc). apply HP. eapply nth_error_In; eauto.
Qed.

Lemma getitem_exploded_genre d ex s :
  exploded d = Ok ex -> getitem ex "genre" = Ok s ->
  Forall (fun v => exists r, In r d /\ In v (explode_cell (field "genre" r))) s.
Proof.
  intros Hex Hs. unfold getitem in Hs.
  destruct (position "genre" (columns ex)) as [j|] eqn:Hj; [|discriminate].
  injection Hs as <-. apply Forall_forall. intros v Hv.
  apply in_map_iff in Hv as (rw & <- & Hrw).
  destruct (exploded_row_origin _ _ _ Hex Hrw)
    as (ig & ic & i & r & Hg & _ & Hi & _ & Hin & _ & _).
  rewrite Hj in Hg. injection Hg as <-.
  exists r. split; [eapply nth_error_In; eauto|assumption].
Qed.

Lemma getitem_position df c :
  (exists i, position c (columns df) = Some i) -> exists s, getitem df c = Ok s.
Proof.
  intros [i Hi]. unfold getitem. rewrite Hi. eauto.
Qed.

(** A non-empty document of the input format is loaded. *)
Lemma preprocess_valid d :
  d <> [] -> forallb valid_record d = true -> exists out, preprocess d = Ok out.
Proof.
  intros Hne Hvalid. rewrite forallb_forall in Hvalid.
  destruct d as [|r0 d0]; [congruence|]. set (d := r0 :: d0) in *.
  assert (Hin0 : In r0 d) by now left.
  destruct (valid_record_fields _ (Hvalid _ Hin0)) as (Hy0 & Hr0 & Hg0 & Hc0).
  assert (Pg : exists i, position "genre" (union_keys d) = Some i).
  { apply (union_keys_position _ _ r0 Hin0). intros E. now rewrite E in Hg0. }
  assert (Pc : exists i, position "cast" (union_keys d) = Some i).
  { apply (union_keys_position _ _ r0 Hin0). intros E. now rewrite E in Hc0. }
  assert (Py : exists i, position "year" (union_keys d) = Some i).
  { apply (union_keys_position _ _ r0 Hin0). intros E. now rewrite E in Hy0. }
  assert (Pr : exists i, position "rating" (union_keys d) = Some i).
  { apply (union_keys_position _ _ r0 Hin0). intros E. rewrite E in Hr0.
    destruct Hr0 as [Hr0|[q Hr0]]; discriminate. }
  destruct Pg as [ig Pg], Pc as [ic Pc].
  pose proof (exploded_rows d ig ic Pg Pc) as Hex.
  set (ex := Frame (union_keys d) (flat_map (cross ig ic) (number_rows 0 (union_keys d) d))) in *.
  rewrite preprocess_unfold, Hex. simpl.
  destruct (getitem_position ex "genre" (ex_intro _ ig Pg)) as [g Hg].
  rewrite Hg. simpl.
  assert (Hmg : mapM first_if_list g = Ok (map (fun v => v) g)).
  { apply mapM_map. pose proof (getitem_exploded_genre _ _ _ Hex Hg) as HF.
    rewrite Forall_forall in HF |- *. intros v Hv.
    destruct (HF v Hv) as (r & Hr & Hvr).
    destruct (valid_record_fields _ (Hvalid _ Hr)) as (_ & _ & Hgr & _).
    eapply explode_cell_strs; eauto. }
  unfold apply. rewrite Hmg. simpl.
  destruct (getitem_position ex "year" Py) as [y Hy]. rewrite Hy. simpl.
  assert (Hyint : forallb is_int y = true).
  { apply forallb_forall. apply Forall_forall.
    apply (getitem_exploded_other d ex "year" y (fun v => is_int v = true) Hex Hy);
      try discriminate.
    intros r Hr. now destruct (valid_record_fields _ (Hvalid _ Hr)). }
  destruct (decade_of_ints y Hyint) as (dec & Hdec & _).
  destruct (floordiv10 y) as [tens|]; simpl in *; [|discriminate].
  destruct (mul10 tens) as [fl|]; simpl in *; [|discriminate].
  rewrite Hdec. simpl.
  assert (Hy' : astype_int64 (map fill_cell y) = Ok (map fill_cell y)).
  { unfold astype_int64. rewrite <- (map_id (map fill_cell y)) at 2.
    apply mapM_map. apply Forall_forall. intros v Hv.
    apply in_map_iff in Hv as (x & <- & Hx).
    rewrite forallb_forall in Hyint. specialize (Hyint _ Hx).
    destruct x; try discriminate. reflexivity. }
  rewrite Hy'. simpl.
  destruct (getitem_position ex "rating" Pr) as [rt Hrt]. rewrite Hrt. simpl.
  assert (Hnum : Forall (fun v => is_int v = true \/ exists q, v = VFloat q) rt).
  { apply (getitem_exploded_other d ex "rating" rt _ Hex Hrt); try discriminate.
    intros r Hr. now destruct (valid_record_fields _ (Hvalid _ Hr)) as (_ & ? & _). }
  assert (Hrt' : exists rt', astype_float64 (map fill_cell rt) = Ok rt').
  { clear - Hnum. induction Hnum as [|v rt Hv _ IH]; simpl; [eexists; reflexivity|].
    destruct IH as [rt' IH]. unfold astype_float64 in *. simpl. rewrite IH.
    destruct Hv as [Hv|[q ->]]; [destruct v; try discriminate|]; simpl; eauto. }
  destruct Hrt' as [rt' Hrt']. rewrite Hrt'. simpl. eauto.
Qed.

(* ================================================================== *)
(** ** The explosion is a cross product *)

Lemma cross_columns i j r :
  i <> j -> (i < List.length (cells r))%nat -> (j < List.length (cells r))%nat ->
  map (cell i) (cross i j r)
  = map fst (list_prod (explode_cell (cell i r)) (explode_cell (cell j r))) /\
  map (cell j) (cross i j r)
  = map snd (list_prod (explode_cell (cell i r)) (explode_cell (cell j r))).
Proof.
  intros Hij Li Lj. unfold cross. rewrite !map_map. split; apply map_ext;
    intros [a b]; unfold cell, set_cell; simpl.
  - rewrite nth_set_nth_other by auto. now apply nth_set_nth_same.
  - apply nth_set_nth_same. now rewrite set_nth_length.
Qed.

Lemma number_rows_pairs n cols d ig ic :
  position "genre" cols = Some ig -> position "cast" cols = Some ic ->
  map (cell ig) (flat_map (cross ig ic) (number_rows n cols d)) = map fst (pairs d) /\
  map (cell ic) (flat_map (cross ig ic) (number_rows n cols d)) = map snd (pairs d).
Proof.
  intros Hg Hc.
  assert (Hne : ig <> ic).
  { intros ->. pose proof (position_inj _ _ _ _ Hg Hc). discriminate. }
  unfold pairs. revert n.
  induction d as [|r d IH]; intros n; simpl; [auto|].
  destruct (IH (n + 1)) as [IH1 IH2].
  set (r0 := Row n (record_cells cols r)).
  assert (L : List.length (cells r0) = List.length cols).
  { unfold r0. simpl. unfold record_cells. apply length_map. }
  destruct (cross_columns ig ic r0 Hne) as [C1 C2];
    try (rewrite L; eapply position_lt; eauto).
  rewrite !map_app, IH1, IH2, C1, C2. unfold cell, r0. simpl.
  now rewrite !(record_cells_nth _ r _ _ Hg), !(record_cells_nth _ r _ _ Hc).
Qed.

Lemma exploded_pairs d ex :
  exploded d = Ok ex ->
  getitem ex "genre" = Ok (map fst (pairs d)) /\
  getitem ex "cast" = Ok (map snd (pairs d)).
Proof.
  intros H. apply exploded_inv in H as (ig & ic & Hg & Hc & ->).
  unfold getitem. simpl. rewrite Hg, Hc.
  destruct (number_rows_pairs 0 _ d ig ic Hg Hc) as [-> ->]. auto.
Qed.

Lemma entries_spec v :
  entries v = match v with
              | VList [] => 1%nat
              | VList l => List.length l
              | _ => 1%nat
              end.
Proof. destruct v as [| | | |[|x l]]; reflexivity. Qed.

Lemma entries_nonempty_list l : l <> [] -> entries (VList l) = len (VList l).
Proof. destruct l; [congruence|reflexivity]. Qed.





(* ================================================================== *)
(** ** The table builder *)

Lemma entity_table_columns names t :
  (t0 <- reset_index (DataFrame_of names "name") ;; Ok (rename t0 [("index", "id")]%string))
  = Ok t ->
  exists rs, t = Frame ["id"; "name"]%string rs.
Proof.
  unfold reset_index, DataFrame_of. simpl. intros H. injection H as <-.
  unfold rename. simpl. eauto.
Qed.

Lemma directors_table_columns df t :
  directors_table df = Ok t -> exists rs, t = Frame ["id"; "name"]%string rs.
Proof.
  unfold directors_table.
  destruct (getitem df "director") as [s|]; simpl; [|discriminate].
  destruct (unique s) as [u|]; simpl; [|discriminate].
  apply entity_table_columns.
Qed.

Lemma genres_table_columns df t :
  genres_table df = Ok t -> exists rs, t = Frame ["id"; "name"]%string rs.
Proof.
  unfold genres_table.
  destruct (getitem df "genre") as [s|]; simpl; [|discriminate].
  destruct (unique s) as [u|]; simpl; [|discriminate].
  apply entity_table_columns.
Qed.

(** The projection [df[['title']].reset_index()] has the columns "index" and
    "title": the merge key "director" is not among them. *)
Lemma movie_director_raises df rs :
  movie_director df (Frame ["id"; "name"]%string rs)
  = Raise (KeyError (if mem "title" (columns df) then "director" else "title")).
Proof.
  unfold movie_director, select. simpl.
  destruct (position "title" (columns df)) as [i|] eqn:Hp; simpl.
  - assert (mem "title" (columns df) = true) as -> by (apply position_mem; eauto).
    reflexivity.
  - apply position_not_mem in Hp. now rewrite Hp.
Qed.


Lemma build_tables_raises df : exists e, build_tables df = Raise e.
Proof.
  unfold build_tables.
  destruct (movies_table df) as [m|]; simpl; [|eauto].
  destruct (directors_table df) as [dt|] eqn:Hd; simpl; [|eauto].
  destruct (genres_table df) as [gt|]; simpl; [|eauto].
  apply directors_table_columns in Hd as [rs ->].
  rewrite movie_director_raises. simpl. eauto.
Qed.


(* ================================================================== *)
(** ** Equality of cells and first occurrences *)

Lemma Zeqb_inject x y : Z.eqb x y = Qeq_bool (inject_Z x) (inject_Z y).
Proof.
  unfold Qeq_bool, inject_Z. simpl. now rewrite !Z.mul_1_r.
Qed.

Lemma value_eqb_sym a b : value_eqb a b = value_eqb b a.
Proof.
  destruct a, b; simpl; try reflexivity.
  - apply Z.eqb_sym.
  - apply Qeq_bool_comm.
  - apply Qeq_bool_comm.
  - apply Qeq_bool_comm.
  - apply String.eqb_sym.
Qed.

Lemma value_eqb_trans a b c :
  value_eqb a b = true -> value_eqb b c = true -> value_eqb a c = true.
Proof.
  destruct a, b, c; simpl; try discriminate; try reflexivity;
    rewrite ?Zeqb_inject; try apply Qeq_bool_trans.
  intros H1 H2. apply String.eqb_eq in H1, H2. subst. apply String.eqb_refl.
Qed.

Lemma value_eqb_refl a : hashable a = true -> value_eqb a a = true.
Proof.
  destruct a; simpl; try discriminate; intros _; try reflexivity.
  - apply Z.eqb_refl.
  - apply Qeq_bool_refl.
  - apply String.eqb_refl.
Qed.




Lemma existsb_false {A} (p : A -> bool) l x :
  existsb p l = false -> In x l -> p x = false.
Proof.
  intros H Hin. destruct (p x) eqn:Hp; [|reflexivity].
  assert (existsb p l = true) by (apply existsb_exists; eauto). congruence.
Qed.









Lemma relabel_labels n rs :
  map label (relabel n rs) = map (fun k => n + Z.of_nat k) (seq 0 (List.length rs)).
Proof.
  revert n; induction rs as [|r rs IH]; intros n; simpl; [reflexivity|].
  f_equal; [lia|]. rewrite IH, <- seq_shift, map_map.
  apply map_ext. intros k. lia.
Qed.

(** The labels of a loaded frame are the row positions 0, 1, 2, ... *)
Lemma preprocess_labels d out :
  preprocess d = Ok out ->
  map label (rows out) = map Z.of_nat (seq 0 (List.length (rows out))).
Proof.
  intros H. apply preprocess_inv in H
    as (ex & g & mg & y & tens & fl & dec & y' & rt & rt' & _ & _ & _ & _ & _ & _ & _ & _ & _ & _ & ->).
  unfold assemble, reset_index_drop. simpl.
  now rewrite relabel_labels, relabel_length.
Qed.

Lemma seq_sorted n len : StronglySorted Z.lt (map Z.of_nat (seq n len)).
Proof.
  revert n; induction len as [|len IH]; intros n; simpl; constructor; [apply IH|].
  apply Forall_forall. intros z Hz. apply in_map_iff in Hz as (k & <- & Hk).
  apply in_seq in Hk. lia.
Qed.

Lemma preprocess_labels_sorted d out :
  preprocess d = Ok out -> StronglySorted Z.lt (map label (rows out)).
Proof.
  intros H. rewrite (preprocess_labels _ _ H). apply seq_sorted.
Qed.



(* ================================================================== *)
(** ** The components log and re-raise *)

Lemma load_and_preprocess_data_run E path w :
  load_and_preprocess_data E path w =
  match load E path with
  | Ok df => (Ok df, add_call w "load_and_preprocess_data")
  | Raise e =>
      (Raise e,
       add_line (add_call w "load_and_preprocess_data")
                (String.append "Erro ao carregar dados: " (exn_str e)))
  end.
Proof.
  unfold load_and_preprocess_data, bindM, enter, try_except, lift, print, raise.
  simpl. destruct (load E path); reflexivity.
Qed.

Lemma prepare_database_tables_run df w :
  prepare_database_tables df w =
  match build_tables df with
  | Ok t => (Ok t, add_call w "prepare_database_tables")
  | Raise e =>
      (Raise e,
       add_line (add_call w "prepare_database_tables")
                (String.append "Erro ao preparar tabelas: " (exn_str e)))
  end.
Proof.
  unfold prepare_database_tables, bindM, enter, try_except, lift, print, raise.
  simpl. destruct (build_tables df); reflexivity.
Qed.

(** A handler that prints and re-raises leaves the exception of the body
    unchanged, with its message as the last line printed. *)
Lemma reraise_logged {A} (body : M A) (message : string) w e w' :
  try_except body
    (fun e => print (String.append message (exn_str e)) ;;; raise e) w
  = (Raise e, w') ->
  exists w0,
    body w = (Raise e, w0) /\
    w' = add_line w0 (String.append message (exn_str e)).
Proof.
  unfold try_except, bindM, print, raise.
  destruct (body w) as [[a|e0] w0]; simpl; [discriminate|].
  intros H; injection H as <- <-. eauto.
Qed.

Lemma bindM_enter {A} (name : string) (k : M A) w :
  (enter name ;;; k) w = k (add_call w name).
Proof. reflexivity. Qed.

Lemma component_raise {A} (name : string) (body : M A) (message : string) w e w' :
  (enter name ;;;
   try_except body
     (fun e => print (String.append message (exn_str e)) ;;; raise e)) w
  = (Raise e, w') ->
  exists w0,
    body (add_call w name) = (Raise e, w0) /\
    w' = add_line w0 (String.append message (exn_str e)).
Proof.
  rewrite bindM_enter. apply reraise_logged.
Qed.

(** What a failed visualization leaves behind: no call to a later component
    and no database row. *)
Lemma create_visualizations_raise E df w e w' :
  create_visualizations E df w = (Raise e, w') ->
  calls w' = calls w ++ ["create_visualizations"%string] /\
  database w' = database w /\
  exists lines,
    stdout w' = lines ++ [String.append "Erro ao criar visualizações: " (exn_str e)].
Proof.
  unfold create_visualizations.
  intros H. apply component_raise in H as (w0 & Hbody & ->).
  assert (Hw0 : calls w0 = calls w ++ ["create_visualizations"%string] /\
                database w0 = database w).
  { unfold bindM, lift, external, show, raise, ret in Hbody.
    destruct (aggregates df);
      [|injection Hbody as <- <-; split; reflexivity].
    destruct (_ <- getitem df "title" ;; getitem df "decade");
      [|injection Hbody as <- <-; split; reflexivity].
    destruct (plt_error E df); [|discriminate].
    injection Hbody as <- <-. split; reflexivity. }
  destruct Hw0 as [Hc Hd]. unfold add_line. cbn [calls database stdout].
  repeat split; auto. now exists (stdout w0).
Qed.

Lemma setup_database_engine_raise E db_name w e w' :
  setup_database_engine E db_name w = (Raise e, w') ->
  exists lines,
    stdout w' = lines ++ [String.append "Erro ao configurar banco de dados: " (exn_str e)].
Proof.
  unfold setup_database_engine.
  intros H. apply component_raise in H as (w0 & _ & ->). now exists (stdout w0).
Qed.

Lemma export_to_database_raise E engine metadata tables w e w' :
  export_to_database E engine metadata tables w = (Raise e, w') ->
  exists lines,
    stdout w' = lines ++ [String.append "Erro ao exportar para o banco de dados: " (exn_str e)].
Proof.
  unfold export_to_database.
  intros H. apply component_raise in H as (w0 & _ & ->). now exists (stdout w0).
Qed.

Lemma pipeline_raise E w e w1 :
  pipeline E w = (Raise e, w1) ->
  exists message lines,
    In message component_messages /\
    stdout w1 = lines ++ [String.append message (exn_str e)].
Proof.
  unfold pipeline, bindM.
  rewrite load_and_preprocess_data_run.
  destruct (load E "dataset/movies.json") as [df|e0].
  2:{ intros H; injection H as <- <-.
      exists "Erro ao carregar dados: "%string, (stdout w).
      split; [now left|reflexivity]. }
  destruct (create_visualizations E df _) as [[[]|e0] w2] eqn:Hviz.
  2:{ intros H; injection H as <- <-.
      apply create_visualizations_raise in Hviz as (_ & _ & lines & Hl).
      exists "Erro ao criar visualizações: "%string, lines.
      split; [right; now left|assumption]. }
  rewrite prepare_database_tables_run.
  destruct (build_tables_raises df) as [e0 ->].
  intros H; injection H as <- <-.
  exists "Erro ao preparar tabelas: "%string, (stdout w2).
  split; [right; right; now left|reflexivity].
Qed.

(** C6, as the code has it.  A component that fails prints its message and
    re-raises the exception unchanged; the orchestrator then prints
    "Erro na execução: ..." with the same exception and does not re-raise:
    [main] returns normally, nothing after the failing step having run. *)
Theorem main_logs_and_returns E w :
  (exists w', main E w = (Ok tt, w')) /\
  (forall e w1,
     pipeline E w = (Raise e, w1) ->
     main E w = (Ok tt, add_line w1 (String.append "Erro na execução: " (exn_str e))) /\
     exists message lines,
       In message component_messages /\
       stdout w1 = lines ++ [String.append message (exn_str e)]).
Proof.
  split.
  - unfold main, try_except, print.
    destruct (pipeline E w) as [[[]|e] w1]; eauto.
  - intros e w1 H. split.
    + unfold main, try_except, print. now rewrite H.
    + eapply pipeline_raise; eauto.
Qed.

Lemma main_logs_and_returns_witness :
  main (env_of Absent) initial
  = (Ok tt,
     add_line (add_line (add_call initial "load_and_preprocess_data")
                        "Erro ao carregar dados: File dataset/movies.json does not exist")
              "Erro na execução: File dataset/movies.json does not exist") /\
  exists message lines,
    In message component_messages /\
    stdout (add_line (add_call initial "load_and_preprocess_data")
                     "Erro ao carregar dados: File dataset/movies.json does not exist")
    = lines ++ [String.append message "File dataset/movies.json does not exist"].
Proof.
  apply (proj2 (main_logs_and_returns (env_of Absent) initial)
               (FileNotFoundError "File dataset/movies.json does not exist")).
  reflexivity.
Defined.

(** C6 as stated fails: with the input file missing the loader raises, and
    [main] returns normally instead of raising. *)
Lemma main_reraises_counterexample :
  ~ (forall E w e w1,
       pipeline E w = (Raise e, w1) -> exists w', main E w = (Raise e, w')).
Proof.
  intros H.
  destruct (H (env_of Absent) initial
              (FileNotFoundError "File dataset/movies.json does not exist")
              (add_line (add_call initial "load_and_preprocess_data")
                        "Erro ao carregar dados: File dataset/movies.json does not exist")
              eq_refl) as [w' Hw'].
  vm_compute in Hw'. discriminate.
Qed.

(* ================================================================== *)
(** ** Failures of the loader *)

Lemma getitem_json_absent members c :
  has_member c members = false -> getitem_json members c = Raise (KeyError c).
Proof.
  unfold has_member. induction members as [|[k l] ms IH]; simpl; [reflexivity|].
  destruct (String.eqb c k); simpl; [discriminate|]. exact IH.
Qed.

(** C7, as the code has it.  When the input file is missing, is not JSON, or
    has no "top_movies" member, the loader prints "Erro ao carregar dados:
    ..." and re-raises the exception pandas or Python raised:
    FileNotFoundError, ValueError, KeyError('top_movies').  No exception
    class of the program's own exists. *)
Theorem load_failure_is_reraised_unchanged E path w :
  match fs E path with
  | Absent => exists msg, load_fails E path w (FileNotFoundError msg)
  | Garbled => exists msg, load_fails E path w (ValueError msg)
  | Object members =>
      if has_member "top_movies" members then True
      else load_fails E path w (KeyError "top_movies")
           \/ exists msg, load_fails E path w (ValueError msg)
  end.
Proof.
  unfold load_fails. rewrite load_and_preprocess_data_run.
  unfold load, read_json.
  destruct (fs E path) as [| |members] eqn:Hfs.
  - eexists. reflexivity.
  - eexists. reflexivity.
  - destruct (has_member "top_movies" members) eqn:Hm; [exact I|].
    destruct members as [|[k l] ms]; [left; reflexivity|].
    destruct (same_length (List.length l) ms).
    + left. unfold bind at 1. cbv beta iota. now rewrite (getitem_json_absent _ _ Hm).
    + right. eexists. reflexivity.
Qed.

(** C7 as stated fails: for a document without "top_movies" the exception
    raised is a KeyError, not a LoadError. *)
Lemma load_error_counterexample :
  ~ (forall E path w e w',
       (exists members, fs E path = Object members /\
                        has_member "top_movies" members = false) ->
       load_and_preprocess_data E path w = (Raise e, w') ->
       exn_class e = "LoadError"%string).
Proof.
  intros H.
  specialize (H (env_of (Object [])) "dataset/movies.json"%string initial
                (KeyError "top_movies")
                (add_line (add_call initial "load_and_preprocess_data")
                          "Erro ao carregar dados: 'top_movies'")
                (ex_intro _ [] (conj eq_refl eq_refl)) eq_refl).
  vm_compute in H. discriminate.
Qed.

(* ================================================================== *)
(** ** A failed visualization ends the run *)

(** C8.  When [create_visualizations] raises on the loaded frame, [main]
    ends there: the functions entered are the loader and the visualizer
    only, so [prepare_database_tables], [setup_database_engine] and
    [export_to_database] are not invoked, and the database is as it was. *)
Theorem visualization_failure_aborts E w df w0 e w1 :
  load_and_preprocess_data E "dataset/movies.json" w = (Ok df, w0) ->
  create_visualizations E df w0 = (Raise e, w1) ->
  exists w',
    main E w = (Ok tt, w') /\
    calls w' = calls w ++ ["load_and_preprocess_data"; "create_visualizations"]%string /\
    database w' = database w.
Proof.
  intros Hload Hviz.
  exists (add_line w1 (String.append "Erro na execução: " (exn_str e))).
  split.
  - unfold main, try_except, pipeline, bindM. now rewrite Hload, Hviz.
  - apply create_visualizations_raise in Hviz as (Hc & Hd & _).
    rewrite load_and_preprocess_data_run in Hload.
    destruct (load E "dataset/movies.json"); [|discriminate].
    injection Hload as <- <-. unfold add_line. cbn [calls database].
    rewrite Hc, Hd. unfold add_call. cbn [calls database].
    split; [|reflexivity]. now rewrite <- app_assoc.
Qed.

Lemma visualization_failure_aborts_witness :
  exists w',
    main (env_of (document untitled)) initial = (Ok tt, w') /\
    calls w' = calls initial ++ ["load_and_preprocess_data"; "create_visualizations"]%string /\
    database w' = database initial.
Proof.
  apply (visualization_failure_aborts (env_of (document untitled)) initial
           (loaded untitled)
           (add_call initial "load_and_preprocess_data")
           (KeyError "title")
           (add_line (add_call (add_call initial "load_and_preprocess_data")
                               "create_visualizations")
                     "Erro ao criar visualizações: 'title'")).
  - reflexivity.
  - reflexivity.
Defined.

(* ================================================================== *)
(** ** The derived columns on concrete documents *)


(** C4 at the scenario document: the genre list is ["Drama", "Crime"], its
    first element "Drama", and the main_genre of the third and fourth rows
    is "Crime". *)
Theorem main_genre_of_scenario :
  field "genre" (hd [] scenario) = VList [VStr "Drama"; VStr "Crime"] /\
  getitem (loaded scenario) "genre"
  = Ok [VStr "Drama"; VStr "Drama"; VStr "Crime"; VStr "Crime"] /\
  getitem (loaded scenario) "main_genre"
  = Ok [VStr "Drama"; VStr "Drama"; VStr "Crime"; VStr "Crime"].
Proof. repeat split; reflexivity. Qed.

(** When every movie has an integer year, the decade of a row is its year
    floor-divided by ten, times ten, in int64 arithmetic, printed with the
    suffix "s". *)
Lemma decade_when_every_year_is_present d out :
  (forall r, In r d -> is_int (field "year" r) = true) ->
  preprocess d = Ok out ->
  exists decades,
    getitem out "decade" = Ok decades /\
    forall k i r z,
      nth_error (origins d) k = Some i ->
      nth_error d i = Some r ->
      field "year" r = VInt z ->
      nth_error decades k
      = Some (VStr (String.append (str_int (wrap64 (z / 10 * 10))) "s")).
Proof.
  intros Hint Hout.
  apply preprocess_inv in Hout
    as (ex & g & mg & y & tens & fl & dec & y' & rt & rt' &
        Hex & Hg & Hmg & Hy & Ht & Hf & Hd & Hy' & Hr & Hr' & ->).
  destruct (computed_lengths _ _ _ _ _ _ _ _ _ _ Hg Hmg Hy Ht Hf Hd Hy' Hr Hr')
    as (L1 & L2 & L3 & L4).
  pose proof (exploded_wf _ _ Hex) as Hwf.
  assert (Hyint : forallb is_int y = true).
  { apply forallb_forall. apply Forall_forall.
    apply (getitem_exploded_other d ex "year" y (fun v => is_int v = true) Hex Hy);
      try discriminate. exact Hint. }
  destruct (decade_of_ints y Hyint) as (dec0 & Hdec0 & Hk).
  rewrite Ht in Hdec0. simpl in Hdec0. rewrite Hf in Hdec0. simpl in Hdec0.
  rewrite Hd in Hdec0. injection Hdec0 as <-.
  exists (map fill_cell dec). split; [now apply assemble_decade|].
  intros k i r z Ho Hi Hz. unfold origins in Ho. rewrite Hex in Ho.
  rewrite nth_error_map in Ho.
  destruct (nth_error (rows ex) k) as [rw|] eqn:Hrw; [|discriminate].
  simpl in Ho. injection Ho as <-.
  destruct (exploded_row_origin _ _ _ Hex (nth_error_In _ _ Hrw))
    as (ig & ic & i & r' & _ & _ & Hi' & Hlab & _ & _ & Hother).
  rewrite Hlab, Nat2Z.id in Hi. rewrite Hi in Hi'. injection Hi' as <-.
  assert (Hyk : nth_error y k = Some (VInt z)).
  { unfold getitem in Hy.
    destruct (position "year" (columns ex)) as [iy|] eqn:Hpy; [|discriminate].
    injection Hy as <-. rewrite nth_error_map, Hrw. simpl. f_equal.
    rewrite (Hother "year"%string iy Hpy) by discriminate. exact Hz. }
  rewrite nth_error_map, (Hk _ _ Hyk). reflexivity.
Qed.

Lemma decade_examples :
  String.append (str_int (wrap64 (1994 / 10 * 10))) "s" = "1990s"%string /\
  String.append (str_int (wrap64 (2005 / 10 * 10))) "s" = "2000s"%string /\
  String.append (str_int (wrap64 (1990 / 10 * 10))) "s" = "1990s"%string.
Proof. repeat split; reflexivity. Qed.

(** C9 at a document whose second movie has no year: the year column has a
    missing value, is float64, and the decade of the first movie, whose year
    1994 is present, is "1990.0s". *)
Theorem decade_next_to_a_missing_year :
  map (field "year") one_year_missing = [VInt 1994; VNaN] /\
  getitem (loaded one_year_missing) "year" = Ok [VInt 1994; VInt 0] /\
  getitem (loaded one_year_missing) "decade" = Ok [VStr "1990.0s"; VStr "nans"].
Proof. repeat split; reflexivity. Qed.

(** C1 at the scenario document: four flattened rows, each of decade
    "1990s"; main_genre is "Drama" on two rows and "Crime" on two; the movies
    table has one row, the directors table one, the genres table two; the
    movie_director chain raises KeyError('director'), the movie_genre chain
    KeyError('id_y'), and [prepare_database_tables] raises instead of
    returning five tables. *)
Theorem scenario_outcome :
  preprocess scenario = Ok (loaded scenario) /\
  List.length (rows (loaded scenario)) = 4%nat /\
  getitem (loaded scenario) "decade"
  = Ok [VStr "1990s"; VStr "1990s"; VStr "1990s"; VStr "1990s"] /\
  getitem (loaded scenario) "main_genre"
  = Ok [VStr "Drama"; VStr "Drama"; VStr "Crime"; VStr "Crime"] /\
  (exists movies directors genres,
     movies_table (loaded scenario) = Ok movies /\
     directors_table (loaded scenario) = Ok directors /\
     genres_table (loaded scenario) = Ok genres /\
     List.length (rows movies) = 1%nat /\
     List.length (rows directors) = 1%nat /\
     List.length (rows genres) = 2%nat /\
     movie_director (loaded scenario) directors = Raise (KeyError "director") /\
     movie_genre (loaded scenario) genres = Raise (KeyError "id_y")) /\
  prepare_database_tables (loaded scenario) initial
  = (Raise (KeyError "director"),
     add_line (add_call initial "prepare_database_tables")
              "Erro ao preparar tabelas: 'director'").
Proof.
  repeat split; try reflexivity.
  do 3 eexists. repeat split; reflexivity.
Qed.

(* ================================================================== *)
(** ** The visualizer and the storage writer on their own *)

Lemma aggregates_columns df :
  aggregates df = Ok tt ->
  forallb (fun c => mem c (columns df)) ["decade"; "rating"; "director"; "cast"]%string = true.
Proof.
  unfold aggregates, getitem. simpl.
  destruct (position "decade" (columns df)) eqn:H1; simpl; [|discriminate].
  destruct (position "rating" (columns df)) eqn:H2; simpl; [|discriminate].
  destruct (dtype_of _); simpl; try discriminate;
    (destruct (position "director" (columns df)) eqn:H3; simpl; [|discriminate];
     destruct (unique _); simpl; [|discriminate];
     destruct (position "cast" (columns df)) eqn:H4; simpl; [|discriminate];
     intros _;
     rewrite !andb_true_iff; repeat split; apply position_mem; eauto).
Qed.

(** The visualizer shows one figure when it returns and none when it raises;
    it returns only on a frame with the five columns it reads and when
    matplotlib does not fail; it prints only its error message and never
    touches the database. *)
Theorem create_visualizations_effects E df w :
  match create_visualizations E df w with
  | (Ok _, w') =>
      w' = World (stdout w) (S (figures w)) (database w)
                 (calls w ++ ["create_visualizations"%string]) /\
      forallb (fun c => mem c (columns df)) visualized_columns = true /\
      plt_error E df = None
  | (Raise e, w') =>
      w' = World (stdout w ++ [String.append "Erro ao criar visualizações: " (exn_str e)])
                 (figures w) (database w)
                 (calls w ++ ["create_visualizations"%string])
  end.
Proof.
  unfold create_visualizations. rewrite bindM_enter.
  unfold try_except, bindM, lift, external, show, raise, ret, print, add_call.
  cbn [stdout figures database calls].
  destruct (aggregates df) as [[]|e] eqn:Hagg; [|reflexivity].
  pose proof (aggregates_columns _ Hagg) as Hcols.
  unfold getitem at 1.
  destruct (position "title" (columns df)) as [i|] eqn:Ht; [|reflexivity].
  cbn [bind].
  destruct (getitem df "decade"); [|reflexivity].
  destruct (plt_error E df); [reflexivity|].
  repeat split. unfold visualized_columns. cbn [forallb] in *.
  rewrite !andb_true_iff in *. destruct Hcols as (H1 & H2 & H3 & H4 & _).
  repeat split; auto. apply position_mem; eauto.
Qed.







(** When creating the schema fails nothing is written. *)
Theorem export_to_database_without_schema E engine metadata tables e w :
  create_all_error E = Some e ->
  export_to_database E engine metadata tables w
  = (Raise e,
     World (stdout w ++ [String.append "Erro ao exportar para o banco de dados: " (exn_str e)])
           (figures w) (database w)
           (calls w ++ ["export_to_database"%string])).
Proof.
  intros Hc. unfold export_to_database. rewrite bindM_enter.
  unfold try_except. unfold bindM at 1. unfold external at 1. rewrite Hc.
  reflexivity.
Qed.

Lemma export_to_database_without_schema_witness :
  export_to_database (env_no_schema Absent cannot_open)
    "sqlite:///cinemalytics.db" schema sample_tables initial
  = (Raise cannot_open,
     World (stdout initial ++
              [String.append "Erro ao exportar para o banco de dados: "
                 (exn_str cannot_open)])
           (figures initial) (database initial)
           (calls initial ++ ["export_to_database"%string])).
Proof.
  apply (export_to_database_without_schema (env_no_schema Absent cannot_open)).
  reflexivity.
Defined.

(** Setting up the engine returns the SQLite URL of the file name and the
    schema, whose foreign keys all name a primary key of the schema; when
    SQLAlchemy fails it prints its message and re-raises.  Either way the
    database and the figures are untouched. *)
Theorem setup_database_engine_effects E db_name w :
  incl (foreign_keys schema) (primary_keys schema) /\
  match setup_database_engine E db_name w with
  | (Ok (url, metadata), w') =>
      url = String.append "sqlite:///" db_name /\ metadata = schema /\
      create_engine_error E url = None /\
      w' = add_call w "setup_database_engine"
  | (Raise e, w') =>
      create_engine_error E (String.append "sqlite:///" db_name) = Some e /\
      w' = add_line (add_call w "setup_database_engine")
                    (String.append "Erro ao configurar banco de dados: " (exn_str e))
  end.
Proof.
  split.
  - intros k Hk. vm_compute in Hk. vm_compute. tauto.
  - unfold setup_database_engine. rewrite bindM_enter.
    unfold try_except, bindM, external, ret, raise, print.
    destruct (create_engine_error E (String.append "sqlite:///" db_name)) eqn:He;
      rewrite ?He; repeat split; reflexivity.
Qed.

(** ** What [main] never does *)

Lemma create_visualizations_returns E df w w' :
  create_visualizations E df w = (Ok tt, w') ->
  w' = World (stdout w) (S (figures w)) (database w)
             (calls w ++ ["create_visualizations"%string]).
Proof.
  unfold create_visualizations. rewrite bindM_enter.
  unfold try_except, bindM, lift, external, show, raise, ret, print, add_call.
  cbn [stdout figures database calls].
  destruct (aggregates df) as [[]|e]; [|discriminate].
  destruct (_ <- getitem df "title" ;; getitem df "decade"); [|discriminate].
  destruct (plt_error E df); [discriminate|].
  intros H. now injection H as <-.
Qed.

Lemma load_ok_world E path w df w0 :
  load_and_preprocess_data E path w = (Ok df, w0) ->
  w0 = add_call w "load_and_preprocess_data".
Proof.
  rewrite load_and_preprocess_data_run. destruct (load E path); [|discriminate].
  intros H. now injection H as _ <-.
Qed.

(** Whatever the environment, [main] returns normally without having
    entered [setup_database_engine] or [export_to_database], and the
    database is as it was: [prepare_database_tables] raises whenever it is
    reached.  The last line printed is the orchestrator's message. *)
Theorem main_never_writes E w :
  exists w' e lines,
    main E w = (Ok tt, w') /\
    database w' = database w /\
    stdout w' = lines ++ [String.append "Erro na execução: " (exn_str e)] /\
    (calls w' = calls w ++ ["load_and_preprocess_data"]%string \/
     calls w' = calls w ++ ["load_and_preprocess_data"; "create_visualizations"]%string \/
     calls w' = calls w ++ ["load_and_preprocess_data"; "create_visualizations";
                            "prepare_database_tables"]%string).
Proof.
  unfold main, try_except, pipeline, bindM.
  rewrite load_and_preprocess_data_run.
  destruct (load E "dataset/movies.json") as [df|e0].
  2:{ do 3 eexists. unfold print. split; [reflexivity|].
      cbn [database stdout calls add_line add_call]. repeat split. now left. }
  destruct (create_visualizations E df _) as [[[]|e0] w2] eqn:Hviz.
  2:{ apply create_visualizations_raise in Hviz as (Hc & Hd & lines & Hl).
      do 3 eexists. unfold print. split; [reflexivity|].
      cbn [database stdout calls add_line add_call] in *. rewrite Hc, Hd.
      repeat split. right; left. now rewrite <- app_assoc. }
  apply create_visualizations_returns in Hviz as ->.
  rewrite prepare_database_tables_run.
  destruct (build_tables_raises df) as [e0 ->].
  do 3 eexists. unfold print. split; [reflexivity|].
  cbn [database stdout calls add_line add_call]. repeat split.
  right; right. now rewrite <- !app_assoc.
Qed.

(* ================================================================== *)
(** ** The directors and genres tables *)

Lemma uniq_In seen s v : In v (uniq seen s) -> In v s.
Proof.
  revert seen; induction s as [|x s IH]; intros seen; simpl; [tauto|].
  destruct (existsb (value_eqb x) seen).
  - intros H. right. eapply IH; eauto.
  - intros [<-|H]; [now left|right; eapply IH; eauto].
Qed.

Lemma uniq_unseen seen s v x :
  In v (uniq seen s) -> In x seen -> value_eqb v x = false.
Proof.
  revert seen; induction s as [|y s IH]; intros seen; simpl; [tauto|].
  destruct (existsb (value_eqb y) seen) eqn:Hex.
  - apply IH.
  - intros [<-|H] Hx.
    + now apply (existsb_false _ _ _ Hex).
    + apply (IH _ H). now right.
Qed.

Lemma uniq_distinct seen s :
  ForallOrdPairs (fun a b => value_eqb b a = false) (uniq seen s).
Proof.
  revert seen; induction s as [|x s IH]; intros seen; simpl; [constructor|].
  destruct (existsb (value_eqb x) seen); [apply IH|].
  constructor; [|apply IH].
  apply Forall_forall. intros b Hb. eapply uniq_unseen; [exact Hb|now left].
Qed.

Lemma uniq_complete seen s v :
  hashable v = true -> In v s ->
  (exists x, In x seen /\ value_eqb v x = true) \/
  (exists n, In n (uniq seen s) /\ value_eqb v n = true).
Proof.
  intros Hh. revert seen; induction s as [|x s IH]; intros seen; simpl; [tauto|].
  intros [->|Hin].
  - destruct (existsb (value_eqb v) seen) eqn:Hex.
    + left. apply existsb_exists in Hex as (y & Hy & He). eauto.
    + right. exists v. split; [now left|now apply value_eqb_refl].
  - destruct (existsb (value_eqb x) seen) eqn:Hex.
    + now apply IH.
    + destruct (IH (x :: seen) Hin) as [(y & [<-|Hy] & He)|(n & Hn & He)].
      * right. exists x. split; [now left|assumption].
      * left. eauto.
      * right. exists n. split; [now right|assumption].
Qed.

Lemma uniq_first seen s n :
  In n (uniq seen s) ->
  exists pre post,
    s = pre ++ n :: post /\ forall v, In v pre -> value_eqb v n = false.
Proof.
  revert seen; induction s as [|x s IH]; intros seen; simpl; [tauto|].
  destruct (existsb (value_eqb x) seen) eqn:Hex.
  - intros Hn. destruct (IH _ Hn) as (pre & post & -> & Hpre).
    exists (x :: pre), post. split; [reflexivity|].
    intros v [<-|Hv]; [|now apply Hpre].
    apply existsb_exists in Hex as (y & Hy & He).
    destruct (value_eqb x n) eqn:Hxn; [|reflexivity].
    rewrite <- (uniq_unseen _ _ _ _ Hn Hy).
    symmetry. eapply value_eqb_trans; [|exact He].
    now rewrite value_eqb_sym.
  - intros [<-|Hn].
    + exists [], s. split; [reflexivity|]. intros v [].
    + destruct (IH _ Hn) as (pre & post & -> & Hpre).
      exists (x :: pre), post. split; [reflexivity|].
      intros v [<-|Hv]; [|now apply Hpre].
      rewrite value_eqb_sym. eapply uniq_unseen; [exact Hn|now left].
Qed.

Lemma entity_table_built column names t :
  unique column = Ok names ->
  (t0 <- reset_index (DataFrame_of names "name") ;; Ok (rename t0 [("index", "id")]%string))
  = Ok t ->
  entity_table_of column t.
Proof.
  unfold unique. destruct (forallb hashable column) eqn:Hh; [|discriminate].
  intros Hn; injection Hn as <-.
  unfold reset_index, DataFrame_of. simpl. intros H; injection H as <-.
  exists (uniq [] column). unfold rename, getitem. simpl.
  split; [reflexivity|]. split; [|split; [|split; [|split]]].
  - f_equal. unfold cell.
    rewrite <- (map_map cells (fun l => nth 0 l VNaN)), relabel_cells, map_map. simpl.
    rewrite map_map. simpl.
    rewrite <- (map_map label VInt), relabel_labels, length_map, map_map.
    reflexivity.
  - f_equal. unfold cell.
    rewrite <- (map_map cells (fun l => nth 1 l VNaN)), relabel_cells, map_map. simpl.
    rewrite map_map. simpl.
    rewrite <- (map_map cells (fun l => nth 0 l VNaN)), relabel_cells, !map_map. simpl.
    apply map_id.
  - apply uniq_distinct.
  - intros v Hv. rewrite forallb_forall in Hh.
    destruct (uniq_complete [] column v (Hh _ Hv) Hv) as [(x & [] & _)|Hn]; assumption.
  - apply uniq_first.
Qed.

(** The directors table has one row per distinct director of the frame, in
    order of first appearance, with the ids 0, 1, 2, ... *)
Theorem directors_table_sequential_ids df t :
  directors_table df = Ok t ->
  exists director,
    getitem df "director" = Ok director /\ entity_table_of director t.
Proof.
  unfold directors_table.
  destruct (getitem df "director") as [s|]; simpl; [|discriminate].
  destruct (unique s) as [names|] eqn:Hu; simpl; [|discriminate].
  intros H. exists s. split; [reflexivity|].
  eapply entity_table_built; eauto.
Qed.

Lemma directors_table_sequential_ids_witness :
  exists director,
    getitem (loaded two_movies) "director" = Ok director /\
    entity_table_of director
      (Frame ["id"; "name"]%string [Row 0 [VInt 0; VStr "D"]]).
Proof.
  apply (directors_table_sequential_ids (loaded two_movies)). reflexivity.
Defined.

(** The genres table has one row per distinct genre of the flattened frame,
    in order of first appearance, with the ids 0, 1, 2, ... *)
Theorem genres_table_sequential_ids df t :
  genres_table df = Ok t ->
  exists genre,
    getitem df "genre" = Ok genre /\ entity_table_of genre t.
Proof.
  unfold genres_table.
  destruct (getitem df "genre") as [s|]; simpl; [|discriminate].
  destruct (unique s) as [names|] eqn:Hu; simpl; [|discriminate].
  intros H. exists s. split; [reflexivity|].
  eapply entity_table_built; eauto.
Qed.

Lemma genres_table_sequential_ids_witness :
  exists genre,
    getitem (loaded two_movies) "genre" = Ok genre /\
    entity_table_of genre
      (Frame ["id"; "name"]%string
         [Row 0 [VInt 0; VStr "Drama"]; Row 1 [VInt 1; VStr "Crime"];
          Row 2 [VInt 2; VStr "War"]]).
Proof.
  apply (genres_table_sequential_ids (loaded two_movies)). reflexivity.
Defined.

(* ================================================================== *)
(** ** Invariants of the loaded frame *)

Lemma reset_index_drop_wf df : wf df -> wf (reset_index_drop df).
Proof.
  unfold wf, reset_index_drop. simpl. intros H.
  rewrite Forall_forall in H |- *. intros r Hr.
  assert (Hc : In (cells r) (map cells (relabel 0 (rows df)))) by now apply in_map.
  rewrite relabel_cells in Hc. apply in_map_iff in Hc as (r0 & <- & Hr0). now apply H.
Qed.

Lemma assemble_wf ex mg dec y rt : wf ex -> wf (assemble ex mg dec y rt).
Proof.
  intros H. unfold assemble.
  apply reset_index_drop_wf. repeat apply setitem_wf. apply fillna0_wf.
  now repeat apply setitem_wf.
Qed.

Lemma getitem_columns df c s : getitem df c = Ok s -> mem c (columns df) = true.
Proof.
  unfold getitem. destruct (position c (columns df)) eqn:H; [|discriminate].
  intros _. apply position_mem. eauto.
Qed.

Lemma astype_int64_ints s s' :
  astype_int64 s = Ok s' -> Forall (fun v => exists z, v = VInt z) s'.
Proof.
  intros H. apply mapM_Forall2 in H.
  induction H as [|x y l l' Hxy _ IH]; constructor; auto.
  destruct x; try discriminate; injection Hxy as <-; eauto.
Qed.

Lemma astype_float64_floats s s' :
  astype_float64 (map fill_cell s) = Ok s' ->
  Forall (fun v => exists q, v = VFloat q) s'.
Proof.
  intros H. apply mapM_Forall2 in H. remember (map fill_cell s) as fs eqn:Hfs.
  revert s Hfs. induction H as [|x y l l' Hxy _ IH]; intros s Hfs; constructor.
  - destruct s as [|x0 s]; [discriminate|]. injection Hfs as -> _.
    destruct x0; simpl in Hxy; try discriminate; injection Hxy as <-; eauto.
  - destruct s as [|x0 s]; [discriminate|]. injection Hfs as _ ->. now apply (IH s).
Qed.

(** A loaded frame is indexed by row position, has one cell per column in
    every row, and has the six columns the loader read or wrote. *)
Theorem loaded_frame_shape d out :
  preprocess d = Ok out ->
  wf out /\
  map label (rows out) = map Z.of_nat (seq 0 (List.length (rows out))) /\
  forallb (fun c => mem c (columns out))
          ["genre"; "cast"; "main_genre"; "year"; "decade"; "rating"]%string = true.
Proof.
  intros H. split; [|split].
  - apply preprocess_inv in H
      as (ex & g & mg & y & tens & fl & dec & y' & rt & rt' &
          Hex & _ & _ & _ & _ & _ & _ & _ & _ & _ & ->).
    apply assemble_wf. eapply exploded_wf; eauto.
  - now apply (preprocess_labels d).
  - apply preprocess_inv in H
      as (ex & g & mg & y & tens & fl & dec & y' & rt & rt' &
          Hex & Hg & Hmg & Hy & Ht & Hf & Hd & Hy' & Hr & Hr' & ->).
    destruct (computed_lengths _ _ _ _ _ _ _ _ _ _ Hg Hmg Hy Ht Hf Hd Hy' Hr Hr')
      as (L1 & L2 & L3 & L4).
    pose proof (exploded_wf _ _ Hex) as Hwf.
    destruct (exploded_pairs _ _ Hex) as [Pg Pc].
    cbn [forallb]. rewrite !andb_true_iff. repeat split.
    + eapply getitem_columns. apply assemble_kept; eauto; discriminate.
    + eapply getitem_columns. apply assemble_kept; eauto; discriminate.
    + eapply getitem_columns. now apply assemble_main_genre.
    + eapply getitem_columns. now apply assemble_year.
    + eapply getitem_columns. now apply assemble_decade.
    + eapply getitem_columns. now apply assemble_rating.
Qed.

Lemma loaded_frame_shape_witness :
  wf (loaded scenario) /\
  map label (rows (loaded scenario))
  = map Z.of_nat (seq 0 (List.length (rows (loaded scenario)))) /\
  forallb (fun c => mem c (columns (loaded scenario)))
          ["genre"; "cast"; "main_genre"; "year"; "decade"; "rating"]%string = true.
Proof.
  apply (loaded_frame_shape scenario). reflexivity.
Defined.







(* ================================================================== *)
(** ** Records and rows *)

Lemma number_rows_nth n cols d i r :
  nth_error d i = Some r ->
  In (Row (n + Z.of_nat i) (record_cells cols r)) (number_rows n cols d).
Proof.
  revert n i; induction d as [|r0 d IH]; intros n [|i] H; simpl in *; try discriminate.
  - injection H as <-. left. f_equal. lia.
  - right. replace (n + Z.pos (Pos.of_succ_nat i)) with (n + 1 + Z.of_nat i) by lia.
    now apply IH.
Qed.

Lemma explode_cell_nonempty v : explode_cell v <> [].
Proof. destruct v as [| | | |[|x l]]; discriminate. Qed.

Lemma cross_nonempty i j r : exists rw, In rw (cross i j r) /\ label rw = label r.
Proof.
  unfold cross.
  destruct (explode_cell (cell i r)) as [|a la] eqn:Ha;
    [now destruct (explode_cell_nonempty (cell i r))|].
  destruct (explode_cell (cell j r)) as [|b lb] eqn:Hb;
    [now destruct (explode_cell_nonempty (cell j r))|].
  eexists. split; [simpl; left; reflexivity|reflexivity].
Qed.

Lemma origins_cover d out :
  preprocess d = Ok out ->
  List.length (origins d) = List.length (rows out) /\
  (forall i, (i < List.length d)%nat -> In i (origins d)) /\
  (forall i, In i (origins d) -> (i < List.length d)%nat).
Proof.
  intros H. pose proof (preprocess_length _ _ H) as (ex & Hex & Hlen).
  unfold origins. rewrite Hex. split; [|split].
  - now rewrite length_map.
  - intros i Hi. destruct (nth_error d i) as [r|] eqn:Hr;
      [|apply nth_error_None in Hr; lia].
    destruct (exploded_inv _ _ Hex) as (ig & ic & _ & _ & ->). cbn [rows].
    pose proof (number_rows_nth 0 (union_keys d) d i r Hr) as Hin.
    destruct (cross_nonempty ig ic (Row (0 + Z.of_nat i) (record_cells (union_keys d) r)))
      as (rw & Hrw & Hlab).
    apply in_map_iff. exists rw. split.
    + rewrite Hlab. cbn [label]. lia.
    + apply in_flat_map. eauto.
  - intros i Hi. apply in_map_iff in Hi as (rw & <- & Hrw).
    destruct (exploded_row_origin _ _ _ Hex Hrw)
      as (ig & ic & i & r & _ & _ & Hi & Hlab & _).
    rewrite Hlab, Nat2Z.id. apply nth_error_Some. congruence.
Qed.

(** Every record of the document has at least one flattened row, and every
    flattened row comes from a record of the document: the explosion adds
    rows and never drops a movie, not even one with an empty list. *)
Theorem no_record_is_dropped d out :
  preprocess d = Ok out ->
  List.length (origins d) = List.length (rows out) /\
  (forall i, (i < List.length d)%nat -> In i (origins d)) /\
  (forall i, In i (origins d) -> (i < List.length d)%nat).
Proof. apply origins_cover. Qed.

Lemma no_record_is_dropped_witness :
  List.length (origins no_genre) = List.length (rows (loaded no_genre)) /\
  (forall i, (i < List.length no_genre)%nat -> In i (origins no_genre)) /\
  (forall i, In i (origins no_genre) -> (i < List.length no_genre)%nat).
Proof.
  apply (no_record_is_dropped no_genre). reflexivity.
Defined.

(** The loader returns only when every year of the document is a number or
    is missing: a year that is a string or a list makes line 15 raise. *)
Theorem loaded_years_are_numbers d out :
  preprocess d = Ok out ->
  Forall (fun r => is_number (field "year" r) = true) d.
Proof.
  intros H. apply Forall_forall. intros r Hr. pose proof (origins_cover _ _ H) as (_ & Hall & _).
  apply preprocess_inv in H
    as (ex & g & mg & y & tens & fl & dec & y' & rt & rt' &
        Hex & Hg & Hmg & Hy & Ht & Hf & Hd & Hy' & Hrt & Hr' & ->).
  apply In_nth_error in Hr as [i Hi].
  assert (Hlt : (i < List.length d)%nat) by (apply nth_error_Some; congruence).
  specialize (Hall i Hlt). unfold origins in Hall. rewrite Hex in Hall.
  apply in_map_iff in Hall as (rw & Hlab & Hrw).
  destruct (exploded_row_origin _ _ _ Hex Hrw)
    as (ig & ic & i' & r' & _ & _ & Hi' & Hlab' & _ & _ & Hother).
  rewrite Hlab', Nat2Z.id in Hlab. subst i'. rewrite Hi in Hi'. injection Hi' as <-.
  assert (Hnum : forallb is_number y = true).
  { unfold floordiv10 in Ht. destruct (dtype_of y) eqn:Hdt; [| |discriminate].
    - apply dtype_int64_inv in Hdt. rewrite forallb_forall in Hdt |- *.
      intros v Hv. specialize (Hdt v Hv). now destruct v.
    - now apply dtype_float64_inv in Hdt. }
  unfold getitem in Hy.
  destruct (position "year" (columns ex)) as [iy|] eqn:Hpy; [|discriminate].
  injection Hy as <-. rewrite forallb_forall in Hnum.
  rewrite <- (Hother "year"%string iy Hpy) by discriminate.
  apply Hnum. now apply in_map.
Qed.

Lemma loaded_years_are_numbers_witness :
  Forall (fun r => is_number (field "year" r) = true) one_year_missing.
Proof.
  apply (loaded_years_are_numbers one_year_missing (loaded one_year_missing)).
  reflexivity.
Defined.

Lemma add_keys_inv k cols r :
  mem k (add_keys cols r) = true -> mem k cols = true \/ lookup k r <> None.
Proof.
  revert cols; induction r as [|[k' v] r IH]; intros cols H; simpl in *; [now left|].
  destruct (String.eqb k k') eqn:Hk; [right; discriminate|].
  apply IH in H as [H|H]; [|now right]. left.
  destruct (mem k' cols); [assumption|].
  unfold mem in *. rewrite existsb_app in H. simpl in H.
  rewrite Hk in H. simpl in H. now rewrite orb_false_r in H.
Qed.

Lemma union_keys_inv k d :
  mem k (union_keys d) = true -> exists r, In r d /\ lookup k r <> None.
Proof.
  unfold union_keys.
  assert (G : forall cols, mem k (fold_left add_keys d cols) = true ->
                mem k cols = true \/ exists r, In r d /\ lookup k r <> None).
  { induction d as [|r d IH]; intros cols H; simpl in *; [now left|].
    apply IH in H as [H|(r' & Hr' & Hl)].
    - apply add_keys_inv in H as [H|H]; [now left|right; eauto].
    - right. eauto. }
  intros H. apply G in H as [H|H]; [discriminate|assumption].
Qed.

(** When no movie has a genre member, in particular when the list of movies
    is empty, the loader raises KeyError('genre'). *)
Theorem load_without_genre d :
  Forall (fun r => lookup "genre" r = None) d ->
  preprocess d = Raise (KeyError "genre").
Proof.
  intros H. rewrite Forall_forall in H. unfold preprocess, explode. cbn [columns json_normalize].
  destruct (position "genre" (union_keys d)) as [i|] eqn:Hp; [|reflexivity].
  assert (Hm : mem "genre" (union_keys d) = true) by (apply position_mem; eauto).
  apply union_keys_inv in Hm as (r & Hr & Hl). now rewrite (H r Hr) in Hl.
Qed.

Lemma load_without_genre_witness : preprocess [] = Raise (KeyError "genre").
Proof.
  apply (load_without_genre []). constructor.
Defined.

(** When some movie has a genre and none has a cast member, the loader
    raises KeyError('cast'). *)
Theorem load_without_cast d :
  Exists (fun r => lookup "genre" r <> None) d ->
  Forall (fun r => lookup "cast" r = None) d ->
  preprocess d = Raise (KeyError "cast").
Proof.
  intros Hex H. apply Exists_exists in Hex as (r & Hr & Hg).
  rewrite Forall_forall in H. unfold preprocess, explode. cbn [columns json_normalize].
  destruct (lookup "genre" r) as [v|] eqn:Hv; [|congruence].
  pose proof (union_keys_mem _ _ _ _ Hr Hv) as Hm.
  apply position_mem in Hm as [i Hi]. rewrite Hi. cbn [bind columns].
  destruct (position "cast" (union_keys d)) as [j|] eqn:Hp; [|reflexivity].
  assert (Hc : mem "cast" (union_keys d) = true) by (apply position_mem; eauto).
  apply union_keys_inv in Hc as (r' & Hr' & Hl). now rewrite (H r' Hr') in Hl.
Qed.

Lemma load_without_cast_witness : preprocess no_cast_key = Raise (KeyError "cast").
Proof.
  apply (load_without_cast no_cast_key).
  - left. discriminate.
  - repeat constructor.
Defined.


Lemma wrap64_in_range z :
  - 2 ^ 63 <= z < 2 ^ 63 -> wrap64 z = z.
Proof.
  intros H. unfold wrap64. rewrite Z.mod_small by lia. lia.
Qed.

(** When every movie has an integer year, the decade of a row is the bucket
    of its year: for a year [z] that int64 arithmetic does not wrap, it is
    the multiple of ten [b] with [b <= z < b + 10], printed with the suffix
    "s". *)
Theorem decade_is_the_bucket_of_the_year d out :
  forallb (fun r => is_int (field "year" r)) d = true ->
  preprocess d = Ok out ->
  exists decades,
    getitem out "decade" = Ok decades /\
    forall k i r z,
      nth_error (origins d) k = Some i ->
      nth_error d i = Some r ->
      field "year" r = VInt z ->
      - 2 ^ 63 + 10 <= z < 2 ^ 63 ->
      exists b,
        nth_error decades k = Some (VStr (String.append (str_int b) "s")) /\
        b mod 10 = 0 /\ b <= z < b + 10.
Proof.
  intros Hint Hout. rewrite forallb_forall in Hint.
  destruct (decade_when_every_year_is_present d out Hint Hout) as (decades & Hd & Hk).
  exists decades. split; [assumption|].
  intros k i r z Ho Hi Hz Hrange. exists (z / 10 * 10).
  pose proof (Z.div_mod z 10 ltac:(lia)) as Hdm.
  pose proof (Z.mod_pos_bound z 10 ltac:(lia)) as Hb.
  split; [|split].
  - rewrite (Hk k i r z Ho Hi Hz). now rewrite wrap64_in_range by lia.
  - apply Z.mod_mul. lia.
  - lia.
Qed.

Lemma decade_is_the_bucket_of_the_year_witness :
  exists decades,
    getitem (loaded two_movies) "decade" = Ok decades /\
    forall k i r z,
      nth_error (origins two_movies) k = Some i ->
      nth_error two_movies i = Some r ->
      field "year" r = VInt z ->
      - 2 ^ 63 + 10 <= z < 2 ^ 63 ->
      exists b,
        nth_error decades k = Some (VStr (String.append (str_int b) "s")) /\
        b mod 10 = 0 /\ b <= z < b + 10.
Proof.
  apply (decade_is_the_bucket_of_the_year two_movies (loaded two_movies)).
  - reflexivity.
  - reflexivity.
Defined.

(* ================================================================== *)
(** ** The movies table: when it is built *)


Lemma select_present df names :
  find (fun c => negb (mem c (columns df))) names = None ->
  exists proj, select df names = Ok proj /\ columns proj = names.
Proof.
  unfold select. induction names as [|c0 names IH]; simpl.
  - intros _. eexists. split; reflexivity.
  - destruct (mem c0 (columns df)) eqn:Hm; simpl; [|discriminate].
    apply position_mem in Hm as [i ->]. intros H.
    destruct (IH H) as (proj & Hp & _).
    destruct (mapM _ names); simpl in *; [|discriminate].
    eexists. split; reflexivity.
Qed.


(* ================================================================== *)
(** ** The pipeline on a document of the input format *)

Lemma hashable_fill v : (exists s, v = VStr s) \/ v = VNaN -> hashable (fill_cell v) = true.
Proof. intros [[s ->]| ->]; reflexivity. Qed.

Lemma explode_cell_scalar v x :
  str_or_strs v = true -> In x (explode_cell v) -> (exists s, x = VStr s) \/ x = VNaN.
Proof.
  destruct v as [| | |s|l]; simpl; try discriminate.
  - intros _ [<-|[]]. eauto.
  - intros Hl Hin. destruct l as [|y l]; simpl in Hin.
    + destruct Hin as [<-|[]]. now right.
    + rewrite forallb_forall in Hl. specialize (Hl x Hin).
      destruct x; try discriminate. eauto.
Qed.

Lemma pairs_In d p :
  In p (pairs d) ->
  exists r, In r d /\ In (fst p) (explode_cell (field "genre" r))
                   /\ In (snd p) (explode_cell (field "cast" r)).
Proof.
  unfold pairs. intros H. apply in_flat_map in H as (r & Hr & Hp).
  destruct p as [a b]. apply in_prod_iff in Hp. exists r. tauto.
Qed.

Lemma flattened_row_count_aux d :
  d <> [] -> forallb valid_record d = true ->
  exists out,
    preprocess d = Ok out /\
    getitem out "genre" = Ok (map (fun p => fill_cell (fst p)) (pairs d)) /\
    getitem out "cast" = Ok (map (fun p => fill_cell (snd p)) (pairs d)).
Proof.
  intros Hne Hvalid. destruct (preprocess_valid d Hne Hvalid) as [out Hout].
  exists out. split; [assumption|].
  apply preprocess_inv in Hout
    as (ex & g & mg & y & tens & fl & dec & y' & rt & rt' &
        Hex & Hg & Hmg & Hy & Ht & Hf & Hd & Hy' & Hr & Hr' & ->).
  destruct (computed_lengths _ _ _ _ _ _ _ _ _ _ Hg Hmg Hy Ht Hf Hd Hy' Hr Hr')
    as (L1 & L2 & L3 & L4).
  pose proof (exploded_wf _ _ Hex) as Hwf.
  destruct (exploded_pairs _ _ Hex) as [Pg Pc].
  split.
  - rewrite <- (map_map fst fill_cell). apply assemble_kept; auto; discriminate.
  - rewrite <- (map_map snd fill_cell). apply assemble_kept; auto; discriminate.
Qed.

Section ValidDocument.

Variables (d : list record) (out : DataFrame).
Hypothesis Hne : d <> [].
Hypothesis Hvalid : forallb valid_record d = true.
Hypothesis Hout : preprocess d = Ok out.

Lemma valid_text_column c :
  c <> "genre"%string -> c <> "cast"%string -> c <> "rating"%string ->
  c <> "year"%string -> c <> "decade"%string -> c <> "main_genre"%string ->
  (forall r, In r d -> is_str (field c r) = true) ->
  exists s, getitem out c = Ok s /\ forallb hashable s = true.
Proof.
  intros N1 N2 N3 N4 N5 N6 Hstr.
  pose proof Hout as H. apply preprocess_inv in H
    as (ex & g & mg & y & tens & fl & dec & y' & rt & rt' &
        Hex & Hg & Hmg & Hy & Ht & Hf & Hd & Hy' & Hr & Hr' & Heq).
  destruct (computed_lengths _ _ _ _ _ _ _ _ _ _ Hg Hmg Hy Ht Hf Hd Hy' Hr Hr')
    as (L1 & L2 & L3 & L4).
  pose proof (exploded_wf _ _ Hex) as Hwf.
  destruct d as [|r0 d0] eqn:Ed; [congruence|]. rewrite <- Ed in *.
  assert (Hin0 : In r0 d) by (rewrite Ed; now left).
  assert (Hp : exists i, position c (union_keys d) = Some i).
  { apply (union_keys_position _ _ r0 Hin0). intros E0.
    specialize (Hstr _ Hin0). now rewrite E0 in Hstr. }
  destruct (exploded_inv _ _ Hex) as (ig & ic & _ & _ & Hexeq).
  assert (Hp' : exists i, position c (columns ex) = Some i) by (now rewrite Hexeq).
  destruct (getitem_position ex c Hp') as [s Hs].
  exists (map fill_cell s). split.
  - rewrite Heq. apply assemble_kept; auto.
  - apply forallb_forall. intros v Hv. apply in_map_iff in Hv as (x & <- & Hx).
    pose proof (getitem_exploded_other d ex c s (fun v => is_str v = true) Hex Hs N1 N2 Hstr)
      as HF.
    rewrite Forall_forall in HF. specialize (HF _ Hx). now destruct x.
Qed.

Lemma valid_genre_cast_columns :
  exists gs cs,
    getitem out "genre" = Ok gs /\ getitem out "cast" = Ok cs /\
    forallb hashable gs = true /\ forallb hashable cs = true.
Proof.
  destruct (flattened_row_count_aux d Hne Hvalid) as (out' & Hout' & Hg & Hc).
  rewrite Hout in Hout'. injection Hout' as <-.
  assert (Hv : forall r, In r d -> str_or_strs (field "genre" r) = true /\
                                  str_or_strs (field "cast" r) = true).
  { intros r Hr. rewrite forallb_forall in Hvalid.
    destruct (valid_record_fields _ (Hvalid _ Hr)) as (_ & _ & ? & ?). now split. }
  do 2 eexists. split; [exact Hg|]. split; [exact Hc|].
  split; apply forallb_forall; intros v Hin;
    apply in_map_iff in Hin as (p & <- & Hp);
    apply pairs_In in Hp as (r & Hr & Hpg & Hpc);
    destruct (Hv r Hr) as [Vg Vc]; apply hashable_fill.
  - exact (explode_cell_scalar _ _ Vg Hpg).
  - exact (explode_cell_scalar _ _ Vc Hpc).
Qed.

End ValidDocument.

Lemma select_cells df names proj :
  select df names = Ok proj ->
  forall rw v, In rw (rows proj) -> In v (cells rw) ->
  exists c s, In c names /\ getitem df c = Ok s /\ In v s.
Proof.
  unfold select.
  destruct (mapM _ names) as [ps|] eqn:Hps; simpl; [|discriminate].
  intros H; injection H as <-. cbn [rows]. intros rw v Hrw Hv.
  apply in_map_iff in Hrw as (r & <- & Hr). cbn [cells] in Hv.
  apply in_map_iff in Hv as (i & <- & Hi).
  apply mapM_Forall2 in Hps.
  assert (Hc : exists c, In c names /\ position c (columns df) = Some i).
  { clear - Hps Hi. induction Hps as [|c j names ps Hcj _ IH]; [destruct Hi|].
    destruct Hi as [->|Hi].
    - exists c. split; [now left|].
      destruct (position c (columns df)); [now injection Hcj as ->|discriminate].
    - destruct (IH Hi) as (c' & Hc' & Hp). exists c'. split; [now right|assumption]. }
  destruct Hc as (c & Hc & Hp). exists c, (map (cell i) (rows df)).
  split; [assumption|]. split.
  - unfold getitem. now rewrite Hp.
  - now apply in_map.
Qed.

Lemma entity_table_exists s :
  forallb hashable s = true ->
  exists rs,
    (names <- unique s ;;
     t <- reset_index (DataFrame_of names "name") ;;
     Ok (rename t [("index", "id")]%string))
    = Ok (Frame ["id"; "name"]%string rs).
Proof.
  intros H. unfold unique. rewrite H. cbn [bind].
  unfold reset_index, DataFrame_of. cbn. eexists. reflexivity.
Qed.

Section ValidTables.

Variables (d : list record) (out : DataFrame).
Hypothesis Hne : d <> [].
Hypothesis Hvalid : forallb valid_record d = true.
Hypothesis Hout : preprocess d = Ok out.

Lemma valid_strs k :
  In k ["title"; "synopsis"; "director"]%string ->
  forall r, In r d -> is_str (field k r) = true.
Proof.
  intros Hk r Hr. pose proof Hvalid as Hv. rewrite forallb_forall in Hv.
  specialize (Hv r Hr).
  unfold valid_record in Hv. rewrite !andb_true_iff in Hv.
  destruct Hv as [[[[[[Ht _] _] Hs] Hd] _] _].
  destruct Hk as [<-|[<-|[<-|[]]]]; assumption.
Qed.

Lemma valid_numeric_columns :
  exists ys rs,
    getitem out "year" = Ok ys /\ getitem out "rating" = Ok rs /\
    forallb hashable ys = true /\ forallb hashable rs = true /\
    forallb is_number rs = true.
Proof.
  pose proof Hout as H. apply preprocess_inv in H
    as (ex & g & mg & y & tens & fl & dec & y' & rt & rt' &
        Hex & Hg & Hmg & Hy & Ht & Hf & Hd & Hy' & Hr & Hr' & Heq).
  destruct (computed_lengths _ _ _ _ _ _ _ _ _ _ Hg Hmg Hy Ht Hf Hd Hy' Hr Hr')
    as (L1 & L2 & L3 & L4).
  pose proof (exploded_wf _ _ Hex) as Hwf.
  exists y', rt'. rewrite Heq.
  split; [now apply assemble_year|]. split; [now apply assemble_rating|].
  apply astype_int64_ints in Hy'. apply astype_float64_floats in Hr'.
  rewrite Forall_forall in Hy', Hr'.
  repeat split; apply forallb_forall; intros v Hv.
  - destruct (Hy' v Hv) as [z ->]. reflexivity.
  - destruct (Hr' v Hv) as [q ->]. reflexivity.
  - destruct (Hr' v Hv) as [q ->]. reflexivity.
Qed.


Lemma valid_movie_column c :
  In c movie_columns ->
  exists s, getitem out c = Ok s /\ forallb hashable s = true.
Proof.
  destruct valid_numeric_columns as (ys & rs & Hy & Hr & Hhy & Hhr & _).
  intros [<-|[<-|[<-|[<-|[]]]]].
  - apply (valid_text_column d out Hne Hvalid Hout); try discriminate.
    apply valid_strs. now left.
  - eauto.
  - eauto.
  - apply (valid_text_column d out Hne Hvalid Hout); try discriminate.
    apply valid_strs. right. now left.
Qed.

Lemma valid_movies_table : exists t, movies_table out = Ok t.
Proof.
  assert (Hf : find (fun c => negb (mem c (columns out))) movie_columns = None).
  { destruct (find _ movie_columns) as [c|] eqn:Hfind; [|reflexivity].
    apply find_some in Hfind as [Hc Hm].
    destruct (valid_movie_column c Hc) as (s & Hs & _).
    now rewrite (getitem_columns _ _ _ Hs) in Hm. }
  destruct (select_present _ _ Hf) as (proj & Hp & Hc).
  unfold movies_table. fold movie_columns. rewrite Hp. cbn [bind].
  unfold drop_duplicates.
  assert (Hh : forallb (fun r => forallb hashable (cells r)) (rows proj) = true).
  { apply forallb_forall. intros rw Hrw. apply forallb_forall. intros v Hv.
    destruct (select_cells _ _ _ Hp rw v Hrw Hv) as (c & s & Hcin & Hs & Hvs).
    destruct (valid_movie_column c Hcin) as (s' & Hs' & Hh).
    rewrite Hs in Hs'. injection Hs' as <-.
    rewrite forallb_forall in Hh. now apply Hh. }
  rewrite Hh. cbn [bind]. unfold reset_index. cbn [columns]. rewrite Hc.
  eexists. reflexivity.
Qed.

Lemma valid_entity_tables :
  exists rd rg,
    directors_table out = Ok (Frame ["id"; "name"]%string rd) /\
    genres_table out = Ok (Frame ["id"; "name"]%string rg).
Proof.
  destruct (valid_text_column d out Hne Hvalid Hout "director") as (ds & Hd & Hhd);
    try discriminate.
  { apply valid_strs. right. right. now left. }
  destruct (valid_genre_cast_columns d out Hne Hvalid Hout)
    as (gs & cs & Hg & Hc & Hhg & Hhc).
  unfold directors_table, genres_table. rewrite Hd, Hg. cbn [bind].
  destruct (entity_table_exists ds Hhd) as [rd ->].
  destruct (entity_table_exists gs Hhg) as [rg ->]. eauto.
Qed.

Lemma valid_build_tables : build_tables out = Raise (KeyError "director").
Proof.
  unfold build_tables. destruct valid_movies_table as [m ->]. cbn [bind].
  destruct valid_entity_tables as (rd & rg & -> & ->). cbn [bind].
  rewrite movie_director_raises.
  destruct (valid_movie_column "title"%string) as (s & Hs & _); [now left|].
  now rewrite (getitem_columns _ _ _ Hs).
Qed.



End ValidTables.

(** On the frame loaded from a non-empty document of the input format the
    table builder gets as far as the movie_director merge: the movies,
    directors and genres tables are built, and the function raises
    KeyError('director'). *)
Theorem prepare_database_tables_on_a_loaded_document d out w :
  d <> [] -> forallb valid_record d = true -> preprocess d = Ok out ->
  (exists movies directors genres,
     movies_table out = Ok movies /\ directors_table out = Ok directors /\
     genres_table out = Ok genres) /\
  prepare_database_tables out w
  = (Raise (KeyError "director"),
     add_line (add_call w "prepare_database_tables")
              "Erro ao preparar tabelas: 'director'").
Proof.
  intros Hne Hvalid Hout. split.
  - destruct (valid_movies_table d out Hne Hvalid Hout) as [m Hm].
    destruct (valid_entity_tables d out Hne Hvalid Hout) as (rd & rg & Hd & Hg).
    eauto 6.
  - rewrite prepare_database_tables_run.
    now rewrite (valid_build_tables d out Hne Hvalid Hout).
Qed.

Lemma prepare_database_tables_on_a_loaded_document_witness :
  (exists movies directors genres,
     movies_table (loaded two_movies) = Ok movies /\
     directors_table (loaded two_movies) = Ok directors /\
     genres_table (loaded two_movies) = Ok genres) /\
  prepare_database_tables (loaded two_movies) initial
  = (Raise (KeyError "director"),
     add_line (add_call initial "prepare_database_tables")
              "Erro ao preparar tabelas: 'director'").
Proof.
  apply (prepare_database_tables_on_a_loaded_document two_movies).
  - discriminate.
  - reflexivity.
  - reflexivity.
Defined.


